(** * x-tracker: the inactive-account cleaner

    A shallow embedding of the scoring / ranking / unfollow pipeline of
    [scripts/archive/cleaner_database.py], [inactive_account_cleaner.py] and
    [whitelist_manager.py], and the properties of it that were checked.

    Conventions.
    - A Python [dict] whose keys may be missing and whose values may be
      [None] is a [gmap string pyval]; [d.get(k)] is [d !! k].
    - An SQLite table is the list of its rows in rowid order; a nullable
      column is an [option].  INTEGER and BOOLEAN columns hold [Z], TEXT
      columns hold [string].  The three REAL columns are never written by the
      code and therefore only ever hold NULL.
    - The sqlite3 connection is a pair of databases: what the connection sees
      and what has been committed.
    - The HTTP gateway is an oracle indexed by the position in the batch and
      the user id; [None] stands for an exception raised by [requests].
    - Every reading of the clock returns the same timestamp [now]; the
      distance in days of an ISO date from the clock is the function
      [days_since] ([None] when parsing or subtracting raises). *)

From Stdlib Require Import ZArith String Ascii DecimalString.
From stdpp Require Import base option list gmap strings sorting.

Local Open Scope string_scope.
Local Open Scope Z_scope.

(** ** Python values and exceptions *)

Inductive pyval : Type :=
  | PyNone
  | PyBool (b : bool)
  | PyInt (z : Z)
  | PyStr (s : string).

Inductive pyexc : Type := TypeError | KeyError | ValueError.

Inductive pyresult (A : Type) : Type :=
  | Ok (a : A)
  | Raise (e : pyexc).
Arguments Ok {A} a.
Arguments Raise {A} e.

#[global] Instance pyresult_ret : MRet pyresult := fun _ a => Ok a.
#[global] Instance pyresult_bind : MBind pyresult := fun _ _ f m =>
  match m with
  | Ok a => f a
  | Raise e => Raise e
  end.

(** [bool(v)] *)
Definition truthy (v : pyval) : bool :=
  match v with
  | PyNone => false
  | PyBool b => b
  | PyInt z => negb (z =? 0)
  | PyStr s => negb (String.eqb s "")
  end.

(** [d.get(k)]: a missing key reads as [None]. *)
Definition py_get (d : gmap string pyval) (k : string) : pyval :=
  default PyNone (d !! k).

(** [d.get(k, dflt)]: the default only replaces a missing key, a key that is
    present with value [None] reads as [None]. *)
Definition py_get_default (d : gmap string pyval) (k : string) (dflt : pyval)
  : pyval :=
  default dflt (d !! k).

(** [v > n] and [v < n] for an integer literal [n]: Python 3 orders [int]
    and [bool] (a subtype of [int]) and raises [TypeError] on [None] and on
    [str]. *)
Definition py_gt (v : pyval) (n : Z) : pyresult bool :=
  match v with
  | PyInt z => Ok (n <? z)
  | PyBool b => Ok (n <? Z.b2z b)
  | PyNone | PyStr _ => Raise TypeError
  end.

Definition py_lt (v : pyval) (n : Z) : pyresult bool :=
  match v with
  | PyInt z => Ok (z <? n)
  | PyBool b => Ok (Z.b2z b <? n)
  | PyNone | PyStr _ => Raise TypeError
  end.

(** The values Python can order against an integer. *)
Definition comparable (v : pyval) : bool :=
  match v with
  | PyInt _ | PyBool _ => true
  | PyNone | PyStr _ => false
  end.

Definition str_of_Z (z : Z) : string := NilZero.string_of_int (Z.to_int z).

(** [str(v)] *)
Definition py_str (v : pyval) : string :=
  match v with
  | PyNone => "None"
  | PyBool true => "True"
  | PyBool false => "False"
  | PyInt z => str_of_Z z
  | PyStr s => s
  end.

(** [needle in hay] on strings *)
Fixpoint str_contains (needle hay : string) : bool :=
  String.prefix needle hay ||
  match hay with
  | EmptyString => false
  | String _ rest => str_contains needle rest
  end.

(** ** Score engine: [CleanerDatabase._calculate_unfollow_score] *)

(** The whitelist escape value returned by the score function and written by
    [add_to_whitelist]. *)
Definition SENTINEL_NEVER : Z := -1000.

(** Lines 273-281: the if/elif chain on [days_inactive]. *)
Definition inactivity_weight (days_inactive : pyval) : pyresult Z :=
  c ← py_gt days_inactive 730;
  if c : bool then Ok 100 else
  c ← py_gt days_inactive 365;
  if c : bool then Ok 80 else
  c ← py_gt days_inactive 180;
  if c : bool then Ok 50 else
  c ← py_gt days_inactive 90;
  if c : bool then Ok 20 else Ok 0.

(** Lines 284-294: the if/elif chain on [follower_count], in source order:
    the test [> 100000] comes before the test [> 1000000]. *)
Definition follower_weight (follower_count : pyval) : pyresult Z :=
  c ← py_lt follower_count 50;
  if c : bool then Ok 30 else
  c ← py_lt follower_count 500;
  if c : bool then Ok 15 else
  c ← py_lt follower_count 5000;
  if c : bool then Ok 5 else
  c ← py_gt follower_count 100000;
  if c : bool then Ok (-20) else
  c ← py_gt follower_count 1000000;
  if c : bool then Ok (-50) else Ok 0.

(** Lines 297-301 *)
Definition quality_weight (account : gmap string pyval) : Z :=
  (if truthy (py_get account "verified") then -40 else 0) +
  (if truthy (py_get account "protected") then 10 else 0).

(** Lines 304-305 *)
Definition profile_weight (account : gmap string pyval) : Z :=
  if negb (truthy (py_get account "profile_image_url")) ||
     str_contains "default_profile"
       (py_str (py_get_default account "profile_image_url" (PyStr "")))
  then 15 else 0.

(** Lines 308-312 *)
Definition tweet_weight (tweet_count : pyval) : pyresult Z :=
  c ← py_lt tweet_count 10;
  if c : bool then Ok 25 else
  c ← py_lt tweet_count 100;
  if c : bool then Ok 10 else Ok 0.

Definition _calculate_unfollow_score (account : gmap string pyval)
  : pyresult Z :=
  if truthy (py_get account "is_whitelisted") then Ok SENTINEL_NEVER else
  d ← inactivity_weight (py_get_default account "days_inactive" (PyInt 0));
  f ← follower_weight (py_get_default account "follower_count" (PyInt 0));
  t ← tweet_weight (py_get_default account "tweet_count" (PyInt 0));
  Ok (Z.max 0 (0 + d + f + quality_weight account + profile_weight account + t)).

(** ** The SQLite schema ([CleanerDatabase.init_database]) *)

(** A REAL column: no statement of the code writes one, so it has no values
    besides NULL. *)
Definition sql_real : Type := Empty_set.

(** Table [following_status]; [user_id] is the primary key. *)
Record following_row : Type := mk_following_row {
  user_id : string;
  username : option string;
  display_name : option string;
  bio : option string;
  location : option string;
  url : option string;
  follower_count : option Z;
  following_count : option Z;
  tweet_count : option Z;
  listed_count : option Z;
  like_count : option Z;
  verified : option Z;
  protected : option Z;
  profile_image_url : option string;
  created_at : option string;
  last_tweet_id : option string;
  last_tweet_date : option string;
  last_tweet_text : option string;
  days_inactive : option Z;
  posting_frequency : option sql_real;
  engagement_estimate : option sql_real;
  first_seen_date : option string;
  last_checked_date : option string;
  check_count : option Z;
  unfollow_score : option Z;
  is_whitelisted : option Z;
  is_mutual_follow : option Z;
  account_value_score : option sql_real;
  unfollowed_date : option string;
  unfollow_reason : option string
}.

(** Table [whitelist]; [wl_user_id] is the primary key. *)
Record whitelist_row : Type := mk_whitelist_row {
  wl_user_id : string;
  wl_username : option string;
  wl_display_name : option string;
  wl_reason : option string;
  wl_added_date : option string;
  wl_added_by : option string;
  wl_is_permanent : option Z
}.

(** Table [unfollow_log]; the autoincrement id is the position in the list. *)
Record unfollow_log_row : Type := mk_unfollow_log_row {
  ul_user_id : string;
  ul_username : option string;
  ul_display_name : option string;
  ul_unfollowed_date : option string;
  ul_days_inactive : option Z;
  ul_follower_count : option Z;
  ul_last_tweet_date : option string;
  ul_unfollow_score : option Z;
  ul_reason : option string;
  ul_batch_id : option string;
  ul_can_rollback : option Z
}.

(** Table [activity_checks]; the autoincrement id is the position in the
    list. *)
Record activity_check_row : Type := mk_activity_check_row {
  ac_user_id : string;
  ac_check_date : option string;
  ac_last_tweet_date : option string;
  ac_days_inactive : option Z;
  ac_follower_count : option Z;
  ac_tweet_count : option Z;
  ac_api_rate_limit_remaining : option string
}.

Record db : Type := mk_db {
  following_status : list following_row;
  whitelist : list whitelist_row;
  unfollow_log : list unfollow_log_row;
  activity_checks : list activity_check_row
}.

(** A request sent to the API gateway. *)
Inductive api_call : Type :=
  | GetTweets (uid : string)
  | DeleteFollowing (uid : string).

(** The state the scripts run in: the connection's view of the database,
    the last committed database, and the requests sent so far (latest
    first). *)
Record world : Type := mk_world {
  conn : db;
  disk : db;
  requests : list api_call
}.

(** [self.conn.commit()] *)
Definition commit (w : world) : world :=
  {| conn := conn w; disk := conn w; requests := requests w |}.

Definition with_following (t : list following_row) (w : world) : world :=
  {| conn := {| following_status := t;
                whitelist := whitelist (conn w);
                unfollow_log := unfollow_log (conn w);
                activity_checks := activity_checks (conn w) |};
     disk := disk w; requests := requests w |}.

Definition with_whitelist (t : list whitelist_row) (w : world) : world :=
  {| conn := {| following_status := following_status (conn w);
                whitelist := t;
                unfollow_log := unfollow_log (conn w);
                activity_checks := activity_checks (conn w) |};
     disk := disk w; requests := requests w |}.

Definition with_unfollow_log (t : list unfollow_log_row) (w : world) : world :=
  {| conn := {| following_status := following_status (conn w);
                whitelist := whitelist (conn w);
                unfollow_log := t;
                activity_checks := activity_checks (conn w) |};
     disk := disk w; requests := requests w |}.

Definition with_activity_checks (t : list activity_check_row) (w : world)
  : world :=
  {| conn := {| following_status := following_status (conn w);
                whitelist := whitelist (conn w);
                unfollow_log := unfollow_log (conn w);
                activity_checks := t |};
     disk := disk w; requests := requests w |}.

Definition send (c : api_call) (w : world) : world :=
  {| conn := conn w; disk := disk w; requests := c :: requests w |}.

(** [UPDATE t SET ... WHERE p]: the rows changed and the statement's
    [rowcount]. *)
Definition sql_update {A : Type} (p : A -> bool) (f : A -> A) (t : list A)
  : list A :=
  map (fun r => if p r then f r else r) t.

Definition sql_rowcount {A : Type} (p : A -> bool) (t : list A) : Z :=
  Z.of_nat (length (List.filter p t)).

(** [DELETE FROM t WHERE p] *)
Definition sql_delete {A : Type} (p : A -> bool) (t : list A) : list A :=
  List.filter (fun r => negb (p r)) t.

(** [INSERT OR REPLACE INTO t]: the rows in conflict on the primary key go,
    the new row gets a fresh rowid. *)
Definition sql_insert_or_replace {A : Type} (key : A -> string) (r : A)
    (t : list A) : list A :=
  sql_delete (fun x => String.eqb (key x) (key r)) t ++ [r].

(** [LIMIT n]: a negative limit means no limit in SQLite. *)
Definition sql_limit {A : Type} (n : Z) (t : list A) : list A :=
  if n <? 0 then t else firstn (Z.to_nat n) t.

(** The row of a user id, if any. *)
Definition find_following (uid : string) (t : list following_row)
  : option following_row :=
  List.find (fun r => String.eqb (user_id r) uid) t.

(** ** The UPDATE statements on [following_status] *)

(** [SET last_tweet_id = ?, last_tweet_date = ?, last_tweet_text = ?,
    days_inactive = ?, last_checked_date = ?, check_count = check_count + 1];
    NULL + 1 is NULL. *)
Definition set_activity (tid tdate ttext : option string) (days : option Z)
    (checked : string) (r : following_row) : following_row :=
  {| user_id := user_id r; username := username r;
     display_name := display_name r; bio := bio r; location := location r;
     url := url r; follower_count := follower_count r;
     following_count := following_count r; tweet_count := tweet_count r;
     listed_count := listed_count r; like_count := like_count r;
     verified := verified r; protected := protected r;
     profile_image_url := profile_image_url r; created_at := created_at r;
     last_tweet_id := tid; last_tweet_date := tdate;
     last_tweet_text := ttext; days_inactive := days;
     posting_frequency := posting_frequency r;
     engagement_estimate := engagement_estimate r;
     first_seen_date := first_seen_date r; last_checked_date := Some checked;
     check_count := (fun c => c + 1) <$> check_count r;
     unfollow_score := unfollow_score r; is_whitelisted := is_whitelisted r;
     is_mutual_follow := is_mutual_follow r;
     account_value_score := account_value_score r;
     unfollowed_date := unfollowed_date r;
     unfollow_reason := unfollow_reason r |}.

(** [SET unfollow_score = ?] *)
Definition set_unfollow_score (score : Z) (r : following_row) : following_row :=
  {| user_id := user_id r; username := username r;
     display_name := display_name r; bio := bio r; location := location r;
     url := url r; follower_count := follower_count r;
     following_count := following_count r; tweet_count := tweet_count r;
     listed_count := listed_count r; like_count := like_count r;
     verified := verified r; protected := protected r;
     profile_image_url := profile_image_url r; created_at := created_at r;
     last_tweet_id := last_tweet_id r; last_tweet_date := last_tweet_date r;
     last_tweet_text := last_tweet_text r; days_inactive := days_inactive r;
     posting_frequency := posting_frequency r;
     engagement_estimate := engagement_estimate r;
     first_seen_date := first_seen_date r;
     last_checked_date := last_checked_date r; check_count := check_count r;
     unfollow_score := Some score; is_whitelisted := is_whitelisted r;
     is_mutual_follow := is_mutual_follow r;
     account_value_score := account_value_score r;
     unfollowed_date := unfollowed_date r;
     unfollow_reason := unfollow_reason r |}.

(** [SET is_whitelisted = 1, unfollow_score = -1000] *)
Definition set_whitelisted (r : following_row) : following_row :=
  {| user_id := user_id r; username := username r;
     display_name := display_name r; bio := bio r; location := location r;
     url := url r; follower_count := follower_count r;
     following_count := following_count r; tweet_count := tweet_count r;
     listed_count := listed_count r; like_count := like_count r;
     verified := verified r; protected := protected r;
     profile_image_url := profile_image_url r; created_at := created_at r;
     last_tweet_id := last_tweet_id r; last_tweet_date := last_tweet_date r;
     last_tweet_text := last_tweet_text r; days_inactive := days_inactive r;
     posting_frequency := posting_frequency r;
     engagement_estimate := engagement_estimate r;
     first_seen_date := first_seen_date r;
     last_checked_date := last_checked_date r; check_count := check_count r;
     unfollow_score := Some (-1000); is_whitelisted := Some 1;
     is_mutual_follow := is_mutual_follow r;
     account_value_score := account_value_score r;
     unfollowed_date := unfollowed_date r;
     unfollow_reason := unfollow_reason r |}.

(** [SET is_whitelisted = 0] *)
Definition clear_whitelisted (r : following_row) : following_row :=
  {| user_id := user_id r; username := username r;
     display_name := display_name r; bio := bio r; location := location r;
     url := url r; follower_count := follower_count r;
     following_count := following_count r; tweet_count := tweet_count r;
     listed_count := listed_count r; like_count := like_count r;
     verified := verified r; protected := protected r;
     profile_image_url := profile_image_url r; created_at := created_at r;
     last_tweet_id := last_tweet_id r; last_tweet_date := last_tweet_date r;
     last_tweet_text := last_tweet_text r; days_inactive := days_inactive r;
     posting_frequency := posting_frequency r;
     engagement_estimate := engagement_estimate r;
     first_seen_date := first_seen_date r;
     last_checked_date := last_checked_date r; check_count := check_count r;
     unfollow_score := unfollow_score r; is_whitelisted := Some 0;
     is_mutual_follow := is_mutual_follow r;
     account_value_score := account_value_score r;
     unfollowed_date := unfollowed_date r;
     unfollow_reason := unfollow_reason r |}.

(** [SET unfollowed_date = ?, unfollow_reason = ?] *)
Definition set_unfollowed (date reason : string) (r : following_row) : following_row :=
  {| user_id := user_id r; username := username r;
     display_name := display_name r; bio := bio r; location := location r;
     url := url r; follower_count := follower_count r;
     following_count := following_count r; tweet_count := tweet_count r;
     listed_count := listed_count r; like_count := like_count r;
     verified := verified r; protected := protected r;
     profile_image_url := profile_image_url r; created_at := created_at r;
     last_tweet_id := last_tweet_id r; last_tweet_date := last_tweet_date r;
     last_tweet_text := last_tweet_text r; days_inactive := days_inactive r;
     posting_frequency := posting_frequency r;
     engagement_estimate := engagement_estimate r;
     first_seen_date := first_seen_date r;
     last_checked_date := last_checked_date r; check_count := check_count r;
     unfollow_score := unfollow_score r; is_whitelisted := is_whitelisted r;
     is_mutual_follow := is_mutual_follow r;
     account_value_score := account_value_score r;
     unfollowed_date := Some date; unfollow_reason := Some reason |}.

(** ** What the API gateway returns *)

(** A user object of [GET /2/users/me/following]; [None] is a missing key. *)
Record public_metrics : Type := mk_public_metrics {
  pm_followers_count : option Z;
  pm_following_count : option Z;
  pm_tweet_count : option Z;
  pm_listed_count : option Z;
  pm_like_count : option Z
}.

Record account_data : Type := mk_account_data {
  ad_id : string;
  ad_username : option string;
  ad_name : option string;
  ad_description : option string;
  ad_location : option string;
  ad_url : option string;
  ad_verified : option bool;
  ad_protected : option bool;
  ad_profile_image_url : option string;
  ad_created_at : option string;
  ad_public_metrics : option public_metrics
}.

(** A tweet object of [GET /2/users/:id/tweets]. *)
Record tweet : Type := mk_tweet {
  tw_id : string;
  tw_created_at : string;
  tw_text : option string
}.

(** The response to [GET /2/users/:id/tweets]: status code, the
    [x-rate-limit-remaining] header, and the [data] array of the body. *)
Record tweets_response : Type := mk_tweets_response {
  status_code : Z;
  x_rate_limit_remaining : option string;
  data : list tweet
}.

(** The dict [activity_data] built by [check_account_activity]. *)
Record activity_data : Type := mk_activity_data {
  act_last_tweet_id : option string;
  act_last_tweet_date : option string;
  act_last_tweet_text : option string;
  act_rate_limit_remaining : string
}.

(** ** SQL value comparisons *)

(** [col >= ?]: NULL compares as unknown, which a WHERE clause rejects. *)
Definition sql_ge (col : option Z) (v : Z) : bool :=
  match col with
  | Some x => v <=? x
  | None => false
  end.

(** [col = ?] on an INTEGER column *)
Definition sql_eq (col : option Z) (v : Z) : bool :=
  match col with
  | Some x => x =? v
  | None => false
  end.

(** [col = ?] on a TEXT column *)
Definition sql_text_eq (col : option string) (v : string) : bool :=
  match col with
  | Some x => String.eqb x v
  | None => false
  end.

(** [col IS NULL] *)
Definition sql_is_null {A : Type} (col : option A) : bool :=
  match col with
  | Some _ => false
  | None => true
  end.

(** The order of [ORDER BY col]: NULL sorts before every integer. *)
Definition sql_leb (a b : option Z) : bool :=
  match a, b with
  | None, _ => true
  | Some _, None => false
  | Some x, Some y => x <=? y
  end.

(** [ORDER BY unfollow_score DESC, days_inactive DESC]: [r1] may come before
    [r2]. *)
Definition rank_leb (r1 r2 : following_row) : bool :=
  if sql_leb (unfollow_score r1) (unfollow_score r2)
  then if sql_leb (unfollow_score r2) (unfollow_score r1)
       then sql_leb (days_inactive r2) (days_inactive r1)
       else false
  else true.

Definition ranks_before (r1 r2 : following_row) : Prop :=
  rank_leb r1 r2 = true.

#[global] Instance ranks_before_dec r1 r2 : Decision (ranks_before r1 r2) :=
  decide (rank_leb r1 r2 = true).

(** ** Candidate ranker: [CleanerDatabase.get_unfollow_candidates] *)

(** The WHERE clause of the candidate query. *)
Definition is_candidate (min_score : Z) (r : following_row) : bool :=
  sql_is_null (unfollowed_date r) &&
  sql_eq (is_whitelisted r) 0 &&
  sql_ge (unfollow_score r) min_score.

Definition get_unfollow_candidates (limit min_score : Z) (w : world)
  : list following_row :=
  sql_limit limit
    (merge_sort ranks_before
       (List.filter (is_candidate min_score) (following_status (conn w)))).

(** [dict(row)] for the columns selected by [calculate_unfollow_scores]. *)
Definition py_of_int (c : option Z) : pyval :=
  match c with
  | Some z => PyInt z
  | None => PyNone
  end.

Definition py_of_text (c : option string) : pyval :=
  match c with
  | Some s => PyStr s
  | None => PyNone
  end.

Definition score_dict (r : following_row) : gmap string pyval :=
  <[ "user_id" := PyStr (user_id r) ]>
  (<[ "days_inactive" := py_of_int (days_inactive r) ]>
  (<[ "follower_count" := py_of_int (follower_count r) ]>
  (<[ "verified" := py_of_int (verified r) ]>
  (<[ "protected" := py_of_int (protected r) ]>
  (<[ "tweet_count" := py_of_int (tweet_count r) ]>
  (<[ "profile_image_url" := py_of_text (profile_image_url r) ]>
  (<[ "is_whitelisted" := py_of_int (is_whitelisted r) ]> ∅))))))).

(** ** Score engine: [CleanerDatabase.calculate_unfollow_scores] *)

(** The loop over the fetched rows: an exception of the score function is
    not caught and leaves the loop with the updates made so far pending. *)
Fixpoint score_loop (accounts : list following_row) (w : world) (updated : Z)
  : world * pyresult Z :=
  match accounts with
  | [] => (w, Ok updated)
  | account :: rest =>
      match _calculate_unfollow_score (score_dict account) with
      | Ok score =>
          score_loop rest
            (with_following
               (sql_update (fun r => String.eqb (user_id r) (user_id account))
                  (set_unfollow_score score) (following_status (conn w))) w)
            (updated + 1)
      | Raise e => (w, Raise e)
      end
  end.

Definition calculate_unfollow_scores (w : world) : world * pyresult Z :=
  let accounts :=
    List.filter (fun r => sql_is_null (unfollowed_date r))
      (following_status (conn w)) in
  match score_loop accounts w 0 with
  | (w', Ok updated) => (commit w', Ok updated)
  | (w', Raise e) => (w', Raise e)
  end.

(** ** Strings *)

(** [str.isdigit()] on an ASCII string: not empty and digits only. *)
Definition is_digit_ascii (c : ascii) : bool :=
  let n := nat_of_ascii c in (48 <=? n)%nat && (n <=? 57)%nat.

Fixpoint all_digits (s : string) : bool :=
  match s with
  | EmptyString => true
  | String c rest => is_digit_ascii c && all_digits rest
  end.

Definition py_isdigit (s : string) : bool :=
  negb (String.eqb s "") && all_digits s.

(** [if identifier.startswith('@'): identifier = identifier[1:]] *)
Definition strip_at (identifier : string) : string :=
  match identifier with
  | String "@"%char rest => rest
  | _ => identifier
  end.

(** [f"Inactive for {days_inactive} days (score: {score})"] *)
Definition unfollow_reason_text (days score : option Z) : string :=
  "Inactive for " ++ py_str (py_of_int days) ++ " days (score: " ++
  py_str (py_of_int score) ++ ")".

Section Clock.

(** [datetime.now(timezone.utc).isoformat()], and the whole days between an
    ISO date and the clock, [None] when [fromisoformat] or the subtraction
    raises. *)
Variable now : string.
Variable days_since : string -> option Z.

(** ** Account store: [CleanerDatabase.add_following_account] *)

(** The row of the INSERT OR REPLACE statement: the seventeen listed columns
    from the user object, the others at their column defaults. *)
Definition new_following_row (a : account_data) : following_row :=
  let metric (get : public_metrics -> option Z) : option Z :=
    match ad_public_metrics a with
    | Some m => Some (default 0 (get m))
    | None => None
    end in
  {| user_id := ad_id a;
     username := ad_username a;
     display_name := ad_name a;
     bio := ad_description a;
     location := ad_location a;
     url := ad_url a;
     follower_count := metric pm_followers_count;
     following_count := metric pm_following_count;
     tweet_count := metric pm_tweet_count;
     listed_count := metric pm_listed_count;
     like_count := metric pm_like_count;
     verified := Some (Z.b2z (default false (ad_verified a)));
     protected := Some (Z.b2z (default false (ad_protected a)));
     profile_image_url := ad_profile_image_url a;
     created_at := ad_created_at a;
     last_tweet_id := None;
     last_tweet_date := None;
     last_tweet_text := None;
     days_inactive := None;
     posting_frequency := None;
     engagement_estimate := None;
     first_seen_date := Some now;
     last_checked_date := Some now;
     check_count := Some 1;
     unfollow_score := None;
     is_whitelisted := Some 0;
     is_mutual_follow := Some 0;
     account_value_score := None;
     unfollowed_date := None;
     unfollow_reason := None |}.

Definition add_following_account (a : account_data) (w : world)
  : world * bool :=
  (commit
     (with_following
        (sql_insert_or_replace user_id (new_following_row a)
           (following_status (conn w))) w),
   true).

(** ** Activity prober: [CleanerDatabase.update_account_activity] *)

Definition new_activity_check (uid : string) (act : activity_data)
    (days : option Z) : activity_check_row :=
  {| ac_user_id := uid;
     ac_check_date := Some now;
     ac_last_tweet_date := act_last_tweet_date act;
     ac_days_inactive := days;
     ac_follower_count := None;
     ac_tweet_count := None;
     ac_api_rate_limit_remaining := Some (act_rate_limit_remaining act) |}.

(** The UPDATE and the INSERT of [update_account_activity], then the
    commit. *)
Definition store_activity (uid : string) (act : activity_data)
    (days : option Z) (w : world) : world :=
  let w1 :=
    with_following
      (sql_update (fun r => String.eqb (user_id r) uid)
         (set_activity (act_last_tweet_id act) (act_last_tweet_date act)
            (act_last_tweet_text act) days now)
         (following_status (conn w))) w in
  commit
    (with_activity_checks
       (activity_checks (conn w1) ++ [new_activity_check uid act days]) w1).

Definition update_account_activity (uid : string) (act : activity_data)
    (w : world) : world * bool :=
  match act_last_tweet_date act with
  | Some date =>
      if String.eqb date "" then (store_activity uid act None w, true)
      else
        match days_since date with
        | Some days => (store_activity uid act (Some days) w, true)
        | None => (w, false)
        end
  | None => (store_activity uid act None w, true)
  end.

(** ** Whitelist guard: [CleanerDatabase.add_to_whitelist] *)

Definition add_to_whitelist (uid uname reason : string) (w : world)
  : world * bool :=
  let entry :=
    {| wl_user_id := uid;
       wl_username := Some uname;
       wl_display_name := None;
       wl_reason := Some reason;
       wl_added_date := Some now;
       wl_added_by := None;
       wl_is_permanent := Some 1 |} in
  let w1 :=
    with_whitelist
      (sql_insert_or_replace wl_user_id entry (whitelist (conn w))) w in
  let w2 :=
    with_following
      (sql_update (fun r => String.eqb (user_id r) uid) set_whitelisted
         (following_status (conn w1))) w1 in
  (commit w2, true).

(** ** Audit log: [CleanerDatabase.log_unfollow] *)

Definition log_unfollow (account : following_row) (reason batch_id : string)
    (w : world) : world * bool :=
  let entry :=
    {| ul_user_id := user_id account;
       ul_username := username account;
       ul_display_name := display_name account;
       ul_unfollowed_date := Some now;
       ul_days_inactive := days_inactive account;
       ul_follower_count := follower_count account;
       ul_last_tweet_date := last_tweet_date account;
       ul_unfollow_score := unfollow_score account;
       ul_reason := Some reason;
       ul_batch_id := Some batch_id;
       ul_can_rollback := Some 1 |} in
  let w1 := with_unfollow_log (unfollow_log (conn w) ++ [entry]) w in
  let w2 :=
    with_following
      (sql_update (fun r => String.eqb (user_id r) (user_id account))
         (set_unfollowed now reason) (following_status (conn w1))) w1 in
  (commit w2, true).

(** ** Activity prober: [InactiveAccountCleaner.check_account_activity] *)

Definition activity_of_response (resp : tweets_response) : activity_data :=
  let rate_remaining := default "N/A" (x_rate_limit_remaining resp) in
  match data resp with
  | latest_tweet :: _ =>
      {| act_last_tweet_id := Some (tw_id latest_tweet);
         act_last_tweet_date := Some (tw_created_at latest_tweet);
         act_last_tweet_text :=
           Some (String.substring 0 100 (default "" (tw_text latest_tweet)));
         act_rate_limit_remaining := rate_remaining |}
  | [] =>
      {| act_last_tweet_id := None;
         act_last_tweet_date := None;
         act_last_tweet_text := None;
         act_rate_limit_remaining := rate_remaining |}
  end.

Definition activity_not_found (resp : tweets_response) : activity_data :=
  {| act_last_tweet_id := None;
     act_last_tweet_date := None;
     act_last_tweet_text := None;
     act_rate_limit_remaining :=
       default "N/A" (x_rate_limit_remaining resp) |}.

(** The [for i, user_id in enumerate(user_ids)] loop; [get_tweets i uid] is
    what the request of iteration [i] returns. *)
Fixpoint check_loop (get_tweets : nat -> string -> option tweets_response)
    (i : nat) (user_ids : list string) (w : world) (checked_count : Z)
  : world * Z :=
  match user_ids with
  | [] => (w, checked_count)
  | uid :: rest =>
      let w := send (GetTweets uid) w in
      match get_tweets i uid with
      | None => check_loop get_tweets (S i) rest w checked_count
      | Some resp =>
          if status_code resp =? 200 then
            let w := fst (update_account_activity uid
                            (activity_of_response resp) w) in
            check_loop get_tweets (S i) rest w (checked_count + 1)
          else if status_code resp =? 404 then
            let w := fst (update_account_activity uid
                            (activity_not_found resp) w) in
            check_loop get_tweets (S i) rest w (checked_count + 1)
          else if status_code resp =? 401 then
            check_loop get_tweets (S i) rest w (checked_count + 1)
          else if status_code resp =? 429 then
            (w, checked_count)
          else
            check_loop get_tweets (S i) rest w checked_count
      end
  end.

Definition check_account_activity
    (get_tweets : nat -> string -> option tweets_response)
    (user_ids : list string) (w : world) : world * Z :=
  check_loop get_tweets 0 user_ids w 0.

(** ** Unfollow executor: [InactiveAccountCleaner.execute_unfollows] *)

(** The [for i, account in enumerate(accounts, 1)] loop; [delete i uid] is
    the status code of the DELETE request of the account at position [i],
    [None] when the request raises. *)
Fixpoint unfollow_loop (dry_run : bool) (delete : nat -> string -> option Z)
    (batch_id : string) (i : nat) (accounts : list following_row) (w : world)
    (success_count error_count : Z) : world * (Z * Z) :=
  match accounts with
  | [] => (w, (success_count, error_count))
  | account :: rest =>
      if dry_run then
        unfollow_loop dry_run delete batch_id (S i) rest w
          (success_count + 1) error_count
      else
        let w := send (DeleteFollowing (user_id account)) w in
        match delete i (user_id account) with
        | None =>
            unfollow_loop dry_run delete batch_id (S i) rest w
              success_count (error_count + 1)
        | Some code =>
            if code =? 200 then
              let reason :=
                unfollow_reason_text (days_inactive account)
                  (unfollow_score account) in
              let w := fst (log_unfollow account reason batch_id w) in
              unfollow_loop dry_run delete batch_id (S i) rest w
                (success_count + 1) error_count
            else if code =? 404 then
              unfollow_loop dry_run delete batch_id (S i) rest w
                (success_count + 1) error_count
            else if code =? 429 then
              (w, (success_count, error_count))
            else
              unfollow_loop dry_run delete batch_id (S i) rest w
                success_count (error_count + 1)
        end
  end.

Definition execute_unfollows (dry_run : bool)
    (delete : nat -> string -> option Z) (batch_id : string)
    (accounts : list following_row) (w : world) : world * (Z * Z) :=
  match accounts with
  | [] => (w, (0, 0))
  | _ => unfollow_loop dry_run delete batch_id 0 accounts w 0 0
  end.

(** ** Whitelist guard: [WhitelistManager.remove_from_whitelist] *)

(** [cursor.rowcount] is the count of the last statement executed, the
    UPDATE on [following_status]. *)
Definition remove_from_whitelist (identifier : string) (w : world)
  : world * bool :=
  let identifier := strip_at identifier in
  let in_whitelist (e : whitelist_row) : bool :=
    if py_isdigit identifier then String.eqb (wl_user_id e) identifier
    else sql_text_eq (wl_username e) identifier in
  let in_following (r : following_row) : bool :=
    if py_isdigit identifier then String.eqb (user_id r) identifier
    else sql_text_eq (username r) identifier in
  let w1 := with_whitelist (sql_delete in_whitelist (whitelist (conn w))) w in
  let rowcount := sql_rowcount in_following (following_status (conn w1)) in
  let w2 :=
    with_following
      (sql_update in_following clear_whitelisted (following_status (conn w1)))
      w1 in
  if 0 <? rowcount then (commit w2, true) else (w2, false).

End Clock.

(** * One iteration of the probe loop, seen from outside

    What the body of the loop of [check_account_activity] does with one
    response: whether it writes to the store and what, whether it counts the
    id, and whether it leaves the loop. *)

(** The value [update_account_activity] computes for [days_inactive];
    the outer [None] is the exception of [fromisoformat]. *)
Definition activity_days (days_since : string -> option Z)
    (act : activity_data) : option (option Z) :=
  match act_last_tweet_date act with
  | Some date =>
      if String.eqb date "" then Some None
      else match days_since date with
           | Some days => Some (Some days)
           | None => None
           end
  | None => Some None
  end.

(** The activity data and days_inactive an iteration writes, if it writes. *)
Definition probe_write (days_since : string -> option Z)
    (resp : option tweets_response) : option (activity_data * option Z) :=
  match resp with
  | Some r =>
      if status_code r =? 200 then
        match activity_days days_since (activity_of_response r) with
        | Some days => Some (activity_of_response r, days)
        | None => None
        end
      else if status_code r =? 404 then Some (activity_not_found r, None)
      else None
  | None => None
  end.

(** The iterations that add one to [checked_count]: 200, 404 and 401. *)
Definition counted (resp : option tweets_response) : bool :=
  match resp with
  | Some r =>
      (status_code r =? 200) || (status_code r =? 404) ||
      (status_code r =? 401)
  | None => false
  end.

(** The iteration that leaves the loop. *)
Definition rate_limited (resp : option tweets_response) : bool :=
  match resp with
  | Some r => status_code r =? 429
  | None => false
  end.

(** The state after an iteration that does not leave the loop. *)
Definition probe_world (now : string) (days_since : string -> option Z)
    (uid : string) (resp : option tweets_response) (w : world) : world :=
  match probe_write days_since resp with
  | Some (act, days) => store_activity now uid act days (send (GetTweets uid) w)
  | None => send (GetTweets uid) w
  end.



(** * Example data *)

(** A followed account with two million followers, inactive for 800 days,
    with a profile image and 500 tweets. *)
Definition celebrity : gmap string pyval :=
  <[ "user_id" := PyStr "7" ]>
  (<[ "days_inactive" := PyInt 800 ]>
  (<[ "follower_count" := PyInt 2000000 ]>
  (<[ "verified" := PyInt 0 ]>
  (<[ "protected" := PyInt 0 ]>
  (<[ "tweet_count" := PyInt 500 ]>
  (<[ "profile_image_url" := PyStr "https://pbs.twimg.com/p/7.jpg" ]>
  (<[ "is_whitelisted" := PyInt 0 ]> ∅))))))).

(** A clock reading, and a calendar on which every date lies 200 days
    back. *)
Definition example_now : string := "2025-01-01T00:00:00+00:00".
Definition example_days_since (date : string) : option Z := Some 200.

Definition empty_db : db :=
  {| following_status := []; whitelist := []; unfollow_log := [];
     activity_checks := [] |}.

Definition empty_world : world :=
  {| conn := empty_db; disk := empty_db; requests := [] |}.

(** A user object as the following list returns it. *)
Definition bob : account_data :=
  {| ad_id := "42";
     ad_username := Some "bob";
     ad_name := Some "Bob";
     ad_description := None;
     ad_location := None;
     ad_url := None;
     ad_verified := Some false;
     ad_protected := Some false;
     ad_profile_image_url := Some "https://pbs.twimg.com/p/42.jpg";
     ad_created_at := Some "2015-03-01T10:00:00.000Z";
     ad_public_metrics :=
       Some {| pm_followers_count := Some 120;
               pm_following_count := Some 80;
               pm_tweet_count := Some 400;
               pm_listed_count := Some 0;
               pm_like_count := None |} |}.

(** The store after the first fetch of a following list that holds [bob]:
    one account that has not been probed yet. *)
Definition world_unprobed : world :=
  fst (add_following_account example_now bob empty_world).



(** A probed and scored account: the row of a fetched user after an
    activity check that found [days] and a scoring that stored [score]. *)
Definition scored_row (uid : string) (score : Z) (days : option Z)
  : following_row :=
  set_unfollow_score score
    (set_activity None None None days example_now
       (new_following_row example_now
          {| ad_id := uid; ad_username := Some ("user" ++ uid);
             ad_name := None; ad_description := None; ad_location := None;
             ad_url := None; ad_verified := None; ad_protected := None;
             ad_profile_image_url := None; ad_created_at := None;
             ad_public_metrics := None |})).

Definition world_of (rows : list following_row) : world :=
  {| conn := {| following_status := rows; whitelist := [];
                unfollow_log := []; activity_checks := [] |};
     disk := {| following_status := rows; whitelist := [];
                unfollow_log := []; activity_checks := [] |};
     requests := [] |}.

(** Four scored accounts, two of them with the same score, one below the
    threshold 50, and one account never scored. *)
Definition world_ranked : world :=
  world_of
    [ scored_row "1" 80 (Some 200);
      scored_row "2" 95 (Some 400);
      scored_row "3" 80 (Some 700);
      scored_row "4" 30 (Some 900);
      new_following_row example_now bob ].


(** A store in which account 42 was unfollowed on 2024-06-01. *)
Definition world_unfollowed : world :=
  world_of
    [ set_unfollowed "2024-06-01T12:00:00+00:00"
        "Inactive for 400 days (score: 80)"
        (scored_row "42" 80 (Some 400)) ].

(** A gateway that answers every unfollow request with 404. *)
Definition delete_not_found (i : nat) (uid : string) : option Z := Some 404.

(** A gateway that confirms the first unfollow request and answers 404 to
    the later ones. *)
Definition delete_ok_then_not_found (i : nat) (uid : string) : option Z :=
  match i with
  | O => Some 200
  | S _ => Some 404
  end.

(** Ten followed accounts fetched and not probed yet. *)
Definition plain_user (uid : string) : account_data :=
  {| ad_id := uid; ad_username := Some ("user" ++ uid);
     ad_name := None; ad_description := None; ad_location := None;
     ad_url := None; ad_verified := None; ad_protected := None;
     ad_profile_image_url := None; ad_created_at := None;
     ad_public_metrics := None |}.

Definition ten_ids : list string :=
  ["1"; "2"; "3"; "4"; "5"; "6"; "7"; "8"; "9"; "10"].

Definition world_ten : world :=
  world_of (map (fun uid => new_following_row example_now (plain_user uid))
              ten_ids).

(** A gateway that answers the fifth request of a batch with 429 and every
    other request with one tweet. *)
Definition get_tweets_limit_at_fifth (i : nat) (uid : string)
  : option tweets_response :=
  if (i =? 4)%nat then
    Some {| status_code := 429; x_rate_limit_remaining := Some "0";
            data := [] |}
  else
    Some {| status_code := 200; x_rate_limit_remaining := Some "899";
            data := [ {| tw_id := "t" ++ uid;
                         tw_created_at := "2024-06-15T08:30:00.000Z";
                         tw_text := Some "hello" |} ] |}.

(** A store with one scored account, neither whitelisted nor unfollowed. *)
Definition world_scored : world :=
  world_of [ scored_row "42" 80 (Some 400) ].

(** * The rest of the cleaner *)

(** ** [CleanerDatabase.get_statistics] *)

(** [col > ?], [col < ?] and [col BETWEEN ? AND ?] on an INTEGER column,
    [col > ?] and [col < ?] on a TEXT column (bytewise order): NULL
    satisfies none of them. *)
Definition sql_gt (col : option Z) (v : Z) : bool :=
  match col with
  | Some x => v <? x
  | None => false
  end.

Definition sql_lt (col : option Z) (v : Z) : bool :=
  match col with
  | Some x => x <? v
  | None => false
  end.

Definition sql_between (col : option Z) (lo hi : Z) : bool :=
  match col with
  | Some x => (lo <=? x) && (x <=? hi)
  | None => false
  end.

Definition sql_text_gt (col : option string) (v : string) : bool :=
  match col with
  | Some x => String.ltb v x
  | None => false
  end.

Definition sql_text_lt (col : option string) (v : string) : bool :=
  match col with
  | Some x => String.ltb x v
  | None => false
  end.

(** [SELECT COUNT( * ) FROM t WHERE p], and [COUNT(CASE WHEN p THEN 1 END)] *)
Definition sql_count {A : Type} (p : A -> bool) (t : list A) : Z :=
  Z.of_nat (length (List.filter p t)).

(** The dict returned by [get_statistics]. *)
Record statistics : Type := mk_statistics {
  total_following : Z;
  dead_1year : Z;
  inactive_6months : Z;
  inactive_3months : Z;
  active : Z;
  unchecked : Z;
  unfollow_candidates : Z;
  whitelisted_accounts : Z;
  total_unfollowed : Z;
  checks_last_24h : Z
}.

(** [day_ago] is the text [datetime('now', '-1 day')]. *)
Definition get_statistics (day_ago : string) (w : world) : statistics :=
  let followed :=
    List.filter (fun r => sql_is_null (unfollowed_date r))
      (following_status (conn w)) in
  {| total_following := sql_count (fun _ => true) followed;
     dead_1year := sql_count (fun r => sql_gt (days_inactive r) 365) followed;
     inactive_6months :=
       sql_count (fun r => sql_between (days_inactive r) 180 365) followed;
     inactive_3months :=
       sql_count (fun r => sql_between (days_inactive r) 90 180) followed;
     active := sql_count (fun r => sql_lt (days_inactive r) 90) followed;
     unchecked := sql_count (fun r => sql_is_null (days_inactive r)) followed;
     unfollow_candidates :=
       sql_count (fun r => sql_ge (unfollow_score r) 50) followed;
     whitelisted_accounts := sql_count (fun _ => true) (whitelist (conn w));
     total_unfollowed := sql_count (fun _ => true) (unfollow_log (conn w));
     checks_last_24h :=
       sql_count (fun c => sql_text_gt (ac_check_date c) day_ago)
         (activity_checks (conn w)) |}.

(** ** [InactiveAccountCleaner.run_activity_analysis] *)

(** [ORDER BY follower_count DESC]: [r1] may come before [r2]. *)
Definition more_followers (r1 r2 : following_row) : Prop :=
  sql_leb (follower_count r2) (follower_count r1) = true.

#[global] Instance more_followers_dec r1 r2 : Decision (more_followers r1 r2) :=
  decide (sql_leb (follower_count r2) (follower_count r1) = true).

(** The WHERE clause of the query for the accounts to probe; [week_ago] is
    the text [datetime('now', '-7 days')]. *)
Definition is_unchecked (week_ago : string) (r : following_row) : bool :=
  sql_is_null (unfollowed_date r) &&
  (sql_is_null (last_checked_date r) ||
   sql_text_lt (last_checked_date r) week_ago).

Definition unchecked_ids (week_ago : string) (w : world) : list string :=
  map user_id
    (merge_sort more_followers
       (List.filter (is_unchecked week_ago) (following_status (conn w)))).

Definition run_activity_analysis (now : string)
    (days_since : string -> option Z)
    (get_tweets : nat -> string -> option tweets_response)
    (week_ago : string) (w : world) : world * Z :=
  match unchecked_ids week_ago w with
  | [] => (w, 0)
  | ids => check_account_activity now days_since get_tweets ids w
  end.

(** ** [WhitelistManager.auto_whitelist_verified] and
       [WhitelistManager.auto_whitelist_high_followers] *)

(** [account['username'] or f"user_{user_id}"] *)
Definition username_or_default (r : following_row) : string :=
  match username r with
  | Some name => if String.eqb name "" then "user_" ++ user_id r else name
  | None => "user_" ++ user_id r
  end.

(** [f"{n:,}"]: the decimal digits in groups of three. *)
Fixpoint group3 (rev_digits : list ascii) : list ascii :=
  match rev_digits with
  | a :: b :: c :: ((_ :: _) as rest) => a :: b :: c :: ","%char :: group3 rest
  | _ => rev_digits
  end.

Definition format_thousands (n : Z) : string :=
  (if n <? 0 then "-" else "") ++
  string_of_list_ascii
    (rev (group3 (rev (list_ascii_of_string (str_of_Z (Z.abs n)))))).

(** The loop [for account in accounts: if self.db.add_to_whitelist(...):
    added_count += 1] of both functions; [reason_of] gives the reason
    recorded for a row. *)
Fixpoint whitelist_each (now : string) (reason_of : following_row -> string)
    (accounts : list following_row) (w : world) (added_count : Z)
  : world * Z :=
  match accounts with
  | [] => (w, added_count)
  | account :: rest =>
      let '(w1, ok) :=
        add_to_whitelist now (user_id account) (username_or_default account)
          (reason_of account) w in
      whitelist_each now reason_of rest w1
        (if ok : bool then added_count + 1 else added_count)
  end.

Definition is_verified_unprotected (r : following_row) : bool :=
  sql_eq (verified r) 1 && sql_eq (is_whitelisted r) 0 &&
  sql_is_null (unfollowed_date r).

Definition auto_whitelist_verified (now : string) (w : world) : world * Z :=
  whitelist_each now (fun _ => "Auto-added: Verified account")
    (List.filter is_verified_unprotected (following_status (conn w))) w 0.

Definition is_influencer_unprotected (min_followers : Z) (r : following_row)
  : bool :=
  sql_ge (follower_count r) min_followers && sql_eq (is_whitelisted r) 0 &&
  sql_is_null (unfollowed_date r).

Definition high_follower_reason (r : following_row) : string :=
  "Auto-added: High influence (" ++
  format_thousands (default 0 (follower_count r)) ++ " followers)".

Definition auto_whitelist_high_followers (now : string) (min_followers : Z)
    (w : world) : world * Z :=
  whitelist_each now high_follower_reason
    (List.filter (is_influencer_unprotected min_followers)
       (following_status (conn w))) w 0.

(** * How the score engine changes a row *)

(** The columns the score function reads of a row hold what it can
    compare, or the row is whitelisted. *)
Definition scorable (r : following_row) : bool :=
  truthy (py_of_int (is_whitelisted r)) ||
  (negb (sql_is_null (days_inactive r)) &&
   negb (sql_is_null (follower_count r)) &&
   negb (sql_is_null (tweet_count r))).

(** The score of a row, 0 standing in where the score function raises. *)
Definition score_of (r : following_row) : Z :=
  match _calculate_unfollow_score (score_dict r) with
  | Ok score => score
  | Raise _ => 0
  end.

(** One UPDATE of the scoring loop, on the table and on a single row. *)
Definition score_step (t : list following_row) (account : following_row)
  : list following_row :=
  sql_update (fun r => String.eqb (user_id r) (user_id account))
    (set_unfollow_score (score_of account)) t.

Definition score_row_step (r account : following_row) : following_row :=
  if String.eqb (user_id r) (user_id account)
  then set_unfollow_score (score_of account) r else r.

(** A followed row with its score recomputed; an unfollowed row as it is. *)
Definition rescored (r : following_row) : following_row :=
  if sql_is_null (unfollowed_date r) then
    match _calculate_unfollow_score (score_dict r) with
    | Ok score => set_unfollow_score score r
    | Raise _ => r
    end
  else r.

(** The account with every weight at its highest: inactive for over two
    years, 10 followers, protected, no profile image, 5 tweets. *)
Definition abandoned : gmap string pyval :=
  <[ "days_inactive" := PyInt 800 ]>
  (<[ "follower_count" := PyInt 10 ]>
  (<[ "protected" := PyInt 1 ]>
  (<[ "tweet_count" := PyInt 5 ]>
  (<[ "is_whitelisted" := PyInt 0 ]> ∅)))).

(** Two probed accounts, a whitelisted one, and one unfollowed earlier. *)
Definition probed_row (uid : string) (days followers tweets : Z)
  : following_row :=
  set_activity None None None (Some days) example_now
    (new_following_row example_now
       {| ad_id := uid; ad_username := Some ("user" ++ uid);
          ad_name := None; ad_description := None; ad_location := None;
          ad_url := None; ad_verified := None; ad_protected := None;
          ad_profile_image_url := Some "https://pbs.twimg.com/p/a.jpg";
          ad_created_at := None;
          ad_public_metrics :=
            Some {| pm_followers_count := Some followers;
                    pm_following_count := None;
                    pm_tweet_count := Some tweets;
                    pm_listed_count := None;
                    pm_like_count := None |} |}).

Definition world_probed : world :=
  world_of
    [ probed_row "1" 800 20 5;
      probed_row "2" 10 7000 900;
      set_whitelisted (probed_row "3" 500 100 50);
      set_unfollowed "2024-06-01T12:00:00+00:00" "Inactive"
        (set_unfollow_score 80 (probed_row "4" 400 100 50)) ].

(** A gateway that confirms the first unfollow request and answers the
    second with 429. *)
Definition delete_ok_then_limited (i : nat) (uid : string) : option Z :=
  match i with
  | O => Some 200
  | S _ => Some 429
  end.

(** The columns of a row that decide whether and how it is unfollowed, and
    its identity. *)
Definition decision_state (r : following_row)
  : string * option Z * option Z * option string * option string :=
  (user_id r, unfollow_score r, is_whitelisted r, unfollowed_date r,
   unfollow_reason r).

(** A gateway that answers every request for tweets with 404. *)
Definition get_tweets_not_found (i : nat) (uid : string)
  : option tweets_response :=
  Some {| status_code := 404; x_rate_limit_remaining := None; data := [] |}.

(** The text of [datetime('now', '-7 days')] for the clock [example_now]. *)
Definition example_week_ago : string := "2024-12-25 00:00:00".

(** Account 1 was checked two weeks before [example_now], account 2 a day
    before, account 3 two weeks before and has been unfollowed since. *)
Definition world_stale : world :=
  world_of
    [ set_activity None None None (Some 300) "2024-12-18T00:00:00+00:00"
        (new_following_row example_now (plain_user "1"));
      set_activity None None None (Some 5) "2024-12-31T00:00:00+00:00"
        (new_following_row example_now (plain_user "2"));
      set_unfollowed "2024-12-20T00:00:00+00:00" "Inactive"
        (set_activity None None None (Some 900) "2024-12-18T00:00:00+00:00"
           (new_following_row example_now (plain_user "3"))) ].

(** A verified account with a million followers, a plain one, and a
    verified one that is already unfollowed. *)
Definition verified_row (uid : string) (followers : Z) : following_row :=
  set_unfollow_score 60
    (set_activity None None None (Some 400) example_now
       (new_following_row example_now
          {| ad_id := uid; ad_username := Some ("user" ++ uid);
             ad_name := None; ad_description := None; ad_location := None;
             ad_url := None; ad_verified := Some true; ad_protected := None;
             ad_profile_image_url := None; ad_created_at := None;
             ad_public_metrics :=
               Some {| pm_followers_count := Some followers;
                       pm_following_count := None; pm_tweet_count := Some 50;
                       pm_listed_count := None; pm_like_count := None |} |})).

Definition world_verified : world :=
  world_of
    [ verified_row "1" 1000000;
      scored_row "2" 95 (Some 400);
      set_unfollowed "2024-06-01T12:00:00+00:00" "Inactive"
        (verified_row "3" 200) ].

(** * The full cycle *)

(** ** [InactiveAccountCleaner.fetch_following_list] *)

(** A page of [GET /2/users/me/following]: status code, the [data] array
    and [meta.next_token]. *)
Record following_response : Type := mk_following_response {
  fr_status_code : Z;
  fr_data : list account_data;
  fr_next_token : option string
}.

(** [for user in users: if self.db.add_following_account(user):
    following_count += 1] *)
Fixpoint add_users (now : string) (users : list account_data) (w : world)
    (following_count : Z) : world * Z :=
  match users with
  | [] => (w, following_count)
  | user :: rest =>
      let '(w1, ok) := add_following_account now user w in
      add_users now rest w1
        (if ok : bool then following_count + 1 else following_count)
  end.

(** The [while True] loop.  [get_following n token] is what the n-th
    request, sent with [token], returns, [None] when it raises.  A gateway
    that answers 429 for ever, or hands out next tokens for ever, keeps the
    loop running: the model runs it for at most [fuel] requests and returns
    [None] when they do not suffice. *)
Fixpoint fetch_loop (now : string)
    (get_following : nat -> option string -> option following_response)
    (fuel n : nat) (pagination_token : option string) (w : world)
    (following_count : Z) : option (world * Z) :=
  match fuel with
  | O => None
  | S fuel =>
      match get_following n pagination_token with
      | None => Some (w, following_count)
      | Some response =>
          if fr_status_code response =? 200 then
            let '(w1, count1) :=
              add_users now (fr_data response) w following_count in
            match fr_next_token response with
            | Some next_token =>
                fetch_loop now get_following fuel (S n) (Some next_token)
                  w1 count1
            | None => Some (w1, count1)
            end
          else if fr_status_code response =? 429 then
            fetch_loop now get_following fuel (S n) pagination_token
              w following_count
          else Some (w, following_count)
      end
  end.

Definition fetch_following_list (now : string)
    (get_following : nat -> option string -> option following_response)
    (fuel : nat) (w : world) : option (world * Z) :=
  fetch_loop now get_following fuel 0 None w 0.

(** ** [InactiveAccountCleaner.get_unfollow_plan] *)

(** The line printed for a candidate formats the username with [:<20],
    days_inactive with [:3d] and follower_count with [:,]; each of them
    raises TypeError on None. *)
Definition plan_line_prints (account : following_row) : bool :=
  negb (sql_is_null (username account)) &&
  negb (sql_is_null (days_inactive account)) &&
  negb (sql_is_null (follower_count account)).

Definition get_unfollow_plan (max_unfollows_per_run min_unfollow_score : Z)
    (w : world) : pyresult (list following_row) :=
  let candidates :=
    get_unfollow_candidates max_unfollows_per_run min_unfollow_score w in
  if forallb plan_line_prints (firstn 10 candidates)
  then Ok candidates else Raise TypeError.

(** ** [InactiveAccountCleaner.run_full_cleaning_cycle] *)

(** How a cycle that does not raise ends: the operator declined, or the
    summary with the five counts is printed. *)
Inductive cycle_outcome : Type :=
  | Cancelled
  | Completed (following_count checked_count scored_count
               success_count error_count : Z).

(** [confirm.lower() != 'y'] *)
Definition confirmed (answer : string) : bool :=
  String.eqb answer "y" || String.eqb answer "Y".

(** The parameters of a run: the clock, the gateway, the configuration, the
    batch id drawn for the unfollows and the answer typed at the prompt. *)
Record cycle_env : Type := mk_cycle_env {
  env_now : string;
  env_days_since : string -> option Z;
  env_week_ago : string;
  env_get_following : nat -> option string -> option following_response;
  env_get_tweets : nat -> string -> option tweets_response;
  env_delete : nat -> string -> option Z;
  env_batch_id : string;
  env_answer : string;
  env_dry_run : bool;
  env_max_unfollows_per_run : Z;
  env_min_unfollow_score : Z
}.

(** The report is computed from [get_statistics] and written to a file; it
    changes nothing in the state and is left out. *)
Definition run_full_cleaning_cycle (env : cycle_env) (fuel : nat) (w : world)
  : option (world * pyresult cycle_outcome) :=
  match fetch_following_list (env_now env) (env_get_following env) fuel w with
  | None => None
  | Some (w1, following_count) =>
      let '(w2, checked_count) :=
        run_activity_analysis (env_now env) (env_days_since env)
          (env_get_tweets env) (env_week_ago env) w1 in
      match calculate_unfollow_scores w2 with
      | (w3, Raise e) => Some (w3, Raise e)
      | (w3, Ok scored_count) =>
          match get_unfollow_plan (env_max_unfollows_per_run env)
                  (env_min_unfollow_score env) w3 with
          | Raise e => Some (w3, Raise e)
          | Ok [] =>
              Some (w3, Ok (Completed following_count checked_count
                              scored_count 0 0))
          | Ok candidates =>
              if negb (env_dry_run env) && negb (confirmed (env_answer env))
              then Some (w3, Ok Cancelled)
              else
                let '(w4, (success_count, error_count)) :=
                  execute_unfollows (env_now env) (env_dry_run env)
                    (env_delete env) (env_batch_id env) candidates w3 in
                Some (w4, Ok (Completed following_count checked_count
                                scored_count success_count error_count))
          end
      end
  end.

(** A row as the upsert at clock [now] leaves it: followed, not
    whitelisted, never probed. *)
Definition freshly_fetched (now : string) (r : following_row) : Prop :=
  unfollowed_date r = None /\ is_whitelisted r = Some 0 /\
  days_inactive r = None /\ last_checked_date r = Some now.

(** Some user id of the table has rows, and all of them are as the upsert
    at clock [now] leaves them. *)
Definition has_fresh_account (now : string) (t : list following_row) : Prop :=
  exists k, (exists r, r ∈ t /\ user_id r = k) /\
            forall r, r ∈ t -> user_id r = k -> freshly_fetched now r.

(** A gateway whose following list is one page that holds [bob], and a run
    in live mode with the prompt answered by y. *)
Definition get_following_bob (n : nat) (token : option string)
  : option following_response :=
  Some {| fr_status_code := 200; fr_data := [bob]; fr_next_token := None |}.

Definition example_env : cycle_env :=
  {| env_now := example_now;
     env_days_since := example_days_since;
     env_week_ago := example_week_ago;
     env_get_following := get_following_bob;
     env_get_tweets := get_tweets_limit_at_fifth;
     env_delete := delete_ok_then_not_found;
     env_batch_id := "0a1b2c3d";
     env_answer := "y";
     env_dry_run := false;
     env_max_unfollows_per_run := 50;
     env_min_unfollow_score := 50 |}.

(** The same run in dry-run mode over a gateway that fails to list the
    following. *)
Definition get_following_fails (n : nat) (token : option string)
  : option following_response := None.

Definition example_dry_env : cycle_env :=
  {| env_now := example_now;
     env_days_since := example_days_since;
     env_week_ago := example_week_ago;
     env_get_following := get_following_fails;
     env_get_tweets := get_tweets_limit_at_fifth;
     env_delete := delete_ok_then_not_found;
     env_batch_id := "0a1b2c3d";
     env_answer := "";
     env_dry_run := true;
     env_max_unfollows_per_run := 50;
     env_min_unfollow_score := 50 |}.

(** A store whose whitelist holds an entry for an account that has no row
    in following_status. *)
Definition world_orphan_entry : world :=
  fst (add_to_whitelist example_now "77" "carol" "close friend" world_scored).

(** * Adding to the whitelist by identifier *)

Module WhitelistManager.

(** [WhitelistManager.add_to_whitelist]: [username_of_id] and
    [id_of_username] are the two user lookups of the API,
    [_get_username_from_id] and [_get_user_id_from_username]; [None] is a
    lookup that fails. *)
Definition add_to_whitelist (now : string)
    (username_of_id id_of_username : string -> option string)
    (identifier reason : string) (w : world) : world * bool :=
  let identifier := strip_at identifier in
  let '(uid, uname) :=
    if py_isdigit identifier
    then (Some identifier, username_of_id identifier)
    else (id_of_username identifier, Some identifier) in
  match uid, uname with
  | Some uid, Some uname =>
      if String.eqb uid "" || String.eqb uname "" then (w, false)
      else add_to_whitelist now uid uname reason w
  | _, _ => (w, false)
  end.

(** [WhitelistManager.bulk_add_from_list] *)
Fixpoint bulk_add_loop (now : string)
    (username_of_id id_of_username : string -> option string)
    (usernames : list string) (reason : string) (w : world) (added_count : Z)
  : world * Z :=
  match usernames with
  | [] => (w, added_count)
  | username :: rest =>
      let '(w1, ok) :=
        add_to_whitelist now username_of_id id_of_username username reason w in
      bulk_add_loop now username_of_id id_of_username rest reason w1
        (if ok : bool then added_count + 1 else added_count)
  end.

Definition bulk_add_from_list (now : string)
    (username_of_id id_of_username : string -> option string)
    (usernames : list string) (reason : string) (w : world) : world * Z :=
  bulk_add_loop now username_of_id id_of_username usernames reason w 0.

End WhitelistManager.

(** The user id and username an identifier stands for, when both lookups
    give a non-empty answer. *)
Definition resolve (username_of_id id_of_username : string -> option string)
    (identifier : string) : option (string * string) :=
  let identifier := strip_at identifier in
  let '(uid, uname) :=
    if py_isdigit identifier
    then (Some identifier, username_of_id identifier)
    else (id_of_username identifier, Some identifier) in
  match uid, uname with
  | Some uid, Some uname =>
      if String.eqb uid "" || String.eqb uname "" then None
      else Some (uid, uname)
  | _, _ => None
  end.

Definition resolvable (username_of_id id_of_username : string -> option string)
    (identifier : string) : bool :=
  match resolve username_of_id id_of_username identifier with
  | Some _ => true
  | None => false
  end.

(** A directory that knows the accounts 42 (bob) and 77 (carol). *)
Definition example_username_of_id (uid : string) : option string :=
  if String.eqb uid "42" then Some "bob"
  else if String.eqb uid "77" then Some "carol" else None.

Definition example_id_of_username (uname : string) : option string :=
  if String.eqb uname "bob" then Some "42"
  else if String.eqb uname "carol" then Some "77" else None.

(** The store of account 42 with its username in another spelling than the
    one the operator types. *)
Definition world_other_spelling : world :=
  world_of
    [ set_unfollow_score 80
        (set_activity None None None (Some 400) example_now
           (new_following_row example_now
              {| ad_id := "42"; ad_username := Some "Bob";
                 ad_name := None; ad_description := None; ad_location := None;
                 ad_url := None; ad_verified := None; ad_protected := None;
                 ad_profile_image_url := None; ad_created_at := None;
                 ad_public_metrics := None |})) ].

(** A store whose best candidate was last probed with an empty timeline:
    its days_inactive is NULL. *)
Definition world_unknown_candidate : world :=
  world_of
    [ set_unfollow_score 90 (probed_row "1" 800 20 5);
      set_unfollow_score 95
        (set_activity None None None None example_now
           (probed_row "2" 800 20 5)) ].


(** * Properties *)

Local Open Scope list_scope.

(** ** Score engine *)

Lemma py_gt_comparable v n : comparable v = true -> exists b, py_gt v n = Ok b.
Proof. destruct v; simpl; intros; try discriminate; eauto. Qed.

Lemma py_lt_comparable v n : comparable v = true -> exists b, py_lt v n = Ok b.
Proof. destruct v; simpl; intros; try discriminate; eauto. Qed.

Lemma py_gt_not_comparable v n : comparable v = false -> py_gt v n = Raise TypeError.
Proof. destruct v; simpl; intros; try discriminate; reflexivity. Qed.

Lemma inactivity_weight_total v :
  comparable v = true -> exists d, inactivity_weight v = Ok d.
Proof.
  intros Hv. unfold inactivity_weight.
  destruct v; try discriminate; simpl;
    repeat (match goal with |- context [if ?c then _ else _] => destruct c end;
            simpl; eauto).
Qed.

Lemma follower_weight_total v :
  comparable v = true -> exists d, follower_weight v = Ok d.
Proof.
  intros Hv. unfold follower_weight.
  destruct v; try discriminate; simpl;
    repeat (match goal with |- context [if ?c then _ else _] => destruct c end;
            simpl; eauto).
Qed.

Lemma tweet_weight_total v :
  comparable v = true -> exists d, tweet_weight v = Ok d.
Proof.
  intros Hv. unfold tweet_weight.
  destruct v; try discriminate; simpl;
    repeat (match goal with |- context [if ?c then _ else _] => destruct c end;
            simpl; eauto).
Qed.

Lemma inactivity_weight_raises v :
  comparable v = false -> inactivity_weight v = Raise TypeError.
Proof.
  intros Hv. unfold inactivity_weight.
  rewrite (py_gt_not_comparable v 730 Hv). reflexivity.
Qed.

(** On integers the follower chain has four outcomes besides 0, and the
    branch for more than a million followers is never taken. *)
Lemma follower_weight_int (z : Z) :
  follower_weight (PyInt z) =
  Ok (if z <? 50 then 30 else if z <? 500 then 15 else if z <? 5000 then 5
      else if 100000 <? z then -20 else 0).
Proof.
  unfold follower_weight; simpl.
  destruct (z <? 50) eqn:E1; simpl; [reflexivity|].
  destruct (z <? 500) eqn:E2; simpl; [reflexivity|].
  destruct (z <? 5000) eqn:E3; simpl; [reflexivity|].
  destruct (100000 <? z) eqn:E4; simpl; [reflexivity|].
  destruct (1000000 <? z) eqn:E5; simpl; [|reflexivity].
  apply Z.ltb_lt in E5. apply Z.ltb_ge in E4. lia.
Qed.

Lemma follower_weight_above_million (z : Z) :
  1000000 < z -> follower_weight (PyInt z) = Ok (-20).
Proof.
  intros Hz. rewrite follower_weight_int.
  destruct (z <? 50) eqn:E1; [apply Z.ltb_lt in E1; lia|].
  destruct (z <? 500) eqn:E2; [apply Z.ltb_lt in E2; lia|].
  destruct (z <? 5000) eqn:E3; [apply Z.ltb_lt in E3; lia|].
  destruct (100000 <? z) eqn:E4; [reflexivity|].
  apply Z.ltb_ge in E4. lia.
Qed.

Lemma follower_weight_never_minus_50 (v : pyval) :
  follower_weight v <> Ok (-50).
Proof.
  destruct v as [|b|z|s]; try discriminate.
  - destruct b; discriminate.
  - rewrite follower_weight_int.
    repeat (match goal with |- context [if ?c then _ else _] => destruct c end);
      discriminate.
Qed.

(** C3: the follower-count brackets are tested in the order < 50, < 500,
    < 5000, > 100000, > 1000000, so an account with more than a million
    followers falls into the > 100000 bracket: its follower term is -20, not
    the -50 of its own bracket, and its score is 80 where the brackets of
    the claim give 50. *)
Theorem C3_million_followers_weigh_minus_20 :
  follower_weight (PyInt 2000000) = Ok (-20) /\
  inactivity_weight (PyInt 800) = Ok 100 /\
  _calculate_unfollow_score celebrity = Ok 80.
Proof. repeat split; vm_compute; reflexivity. Qed.

Lemma score_dict_days_inactive r :
  score_dict r !! "days_inactive" = Some (py_of_int (days_inactive r)).
Proof. reflexivity. Qed.

Lemma score_dict_is_whitelisted r :
  score_dict r !! "is_whitelisted" = Some (py_of_int (is_whitelisted r)).
Proof. reflexivity. Qed.

(** A row read back from the table always carries the key [days_inactive],
    so the default of [get] never applies: NULL reaches the comparison and
    the score function raises. *)
Lemma score_null_days_inactive_raises (r : following_row) :
  truthy (py_of_int (is_whitelisted r)) = false ->
  days_inactive r = None ->
  _calculate_unfollow_score (score_dict r) = Raise TypeError.
Proof.
  intros Hwl Hdays. unfold _calculate_unfollow_score, py_get, py_get_default.
  rewrite score_dict_is_whitelisted, score_dict_days_inactive. simpl.
  rewrite Hwl, Hdays. reflexivity.
Qed.

(** Only a dict without the key gets the default 0 and no inactivity
    weight. *)
Lemma inactivity_weight_missing_key (account : gmap string pyval) :
  account !! "days_inactive" = None ->
  inactivity_weight (py_get_default account "days_inactive" (PyInt 0)) = Ok 0.
Proof. intros H. unfold py_get_default. rewrite H. reflexivity. Qed.

(** C4: for an account whose days_inactive is NULL the score is not
    defined: the row dict holds the key with value None, [None > 730]
    raises TypeError, and [calculate_unfollow_scores] fails with it on a
    store that holds one account fetched but not yet probed. *)
Theorem C4_null_days_inactive_raises_TypeError :
  days_inactive (new_following_row example_now bob) = None /\
  is_whitelisted (new_following_row example_now bob) = Some 0 /\
  _calculate_unfollow_score (score_dict (new_following_row example_now bob))
    = Raise TypeError /\
  snd (calculate_unfollow_scores world_unprobed) = Raise TypeError.
Proof. repeat split; vm_compute; reflexivity. Qed.

(** A dict that lacks the key, as opposed to a row read from the table, is
    scored: 15 for 120 followers and 15 for the missing profile image. *)
Example score_without_days_inactive_key :
  _calculate_unfollow_score
    (<[ "follower_count" := PyInt 120 ]> (<[ "tweet_count" := PyInt 400 ]> ∅))
  = Ok 30.
Proof. vm_compute. reflexivity. Qed.



(** ** Candidate ranker *)

Lemma sql_leb_total a b : sql_leb a b = true \/ sql_leb b a = true.
Proof.
  destruct a as [x|], b as [y|]; simpl; auto.
  destruct (Z.leb_spec x y); [auto | right; apply Z.leb_le; lia].
Qed.

Lemma sql_leb_trans a b c :
  sql_leb a b = true -> sql_leb b c = true -> sql_leb a c = true.
Proof.
  destruct a as [x|], b as [y|], c as [z|]; simpl; try congruence.
  rewrite !Z.leb_le. lia.
Qed.

Lemma sql_leb_false a b : sql_leb a b = false -> sql_leb b a = true.
Proof. destruct (sql_leb_total a b); congruence. Qed.

#[global] Instance ranks_before_total : Total ranks_before.
Proof.
  intros r1 r2. unfold ranks_before, rank_leb.
  destruct (sql_leb (unfollow_score r1) (unfollow_score r2)) eqn:E12;
    destruct (sql_leb (unfollow_score r2) (unfollow_score r1)) eqn:E21; auto.
  apply sql_leb_total.
Qed.

#[global] Instance ranks_before_trans : Transitive ranks_before.
Proof.
  intros r1 r2 r3. unfold ranks_before, rank_leb, sql_leb.
  destruct (unfollow_score r1), (unfollow_score r2), (unfollow_score r3),
    (days_inactive r1), (days_inactive r2), (days_inactive r3);
    repeat match goal with
           | |- context [Z.leb ?a ?b] => destruct (Z.leb_spec a b)
           end;
    intros; try reflexivity; try discriminate; lia.
Qed.

Lemma is_candidate_spec min_score r :
  is_candidate min_score r = true <->
  unfollowed_date r = None /\ is_whitelisted r = Some 0 /\
  exists s, unfollow_score r = Some s /\ min_score <= s.
Proof.
  unfold is_candidate, sql_is_null, sql_eq, sql_ge.
  rewrite !andb_true_iff. split.
  - intros [[Hd Hw] Hs].
    destruct (unfollowed_date r); [discriminate|].
    destruct (is_whitelisted r) as [b|]; [|discriminate].
    destruct (unfollow_score r) as [s|]; [|discriminate].
    apply Z.eqb_eq in Hw. apply Z.leb_le in Hs. subst. eauto.
  - intros (-> & -> & s & -> & Hs). repeat split. by apply Z.leb_le.
Qed.


Lemma sql_limit_split {A : Type} (n : Z) (l : list A) :
  exists rest, sql_limit n l ++ rest = l.
Proof.
  unfold sql_limit. destruct (n <? 0).
  - exists []. apply app_nil_r.
  - exists (drop (Z.to_nat n) l). apply take_drop.
Qed.


(** What the query returns and what it leaves out make up the sorted list
    of the qualifying rows. *)
Lemma candidates_split (limit min_score : Z) (w : world) :
  exists rest,
    get_unfollow_candidates limit min_score w ++ rest =
    merge_sort ranks_before
      (List.filter (is_candidate min_score) (following_status (conn w))).
Proof. apply sql_limit_split. Qed.

Lemma candidates_qualify (limit min_score : Z) (w : world) (r : following_row) :
  r ∈ get_unfollow_candidates limit min_score w ->
  r ∈ following_status (conn w) /\ is_candidate min_score r = true.
Proof.
  intros Hr. destruct (candidates_split limit min_score w) as [rest Hsplit].
  assert (Hin : r ∈ merge_sort ranks_before
             (List.filter (is_candidate min_score) (following_status (conn w)))).
  { rewrite <- Hsplit. apply elem_of_app. by left. }
  rewrite merge_sort_Permutation in Hin.
  apply list_elem_of_In, filter_In in Hin. destruct Hin as [Hin Hc].
  split; [by apply list_elem_of_In | done].
Qed.



(** C10: the candidate query never returns a row whose unfollow_score is
    NULL, whatever the limit and the threshold. *)
Theorem C10_candidates_are_scored (limit min_score : Z) (w : world) :
  Forall (fun r => exists s, unfollow_score r = Some s /\ min_score <= s)
         (get_unfollow_candidates limit min_score w).
Proof.
  apply Forall_forall. intros r Hr.
  apply candidates_qualify in Hr as [_ Hc].
  apply is_candidate_spec in Hc. tauto.
Qed.


(** Of the four scored accounts three reach the threshold; with limit 2 the
    query returns the account scored 95 and then, of the two scored 80, the
    one inactive for longer. *)
Example candidates_of_world_ranked :
  map user_id (get_unfollow_candidates 2 50 world_ranked) = ["2"; "3"] /\
  map user_id (get_unfollow_candidates 100 50 world_ranked) = ["2"; "3"; "1"] /\
  get_unfollow_candidates 100 500 world_ranked = [].
Proof. repeat split; vm_compute; reflexivity. Qed.

(** A negative limit does not truncate. *)
Example candidates_negative_limit :
  map user_id (get_unfollow_candidates (-1) 0 world_ranked)
  = ["2"; "3"; "1"; "4"].
Proof. vm_compute. reflexivity. Qed.

(** ** Account store *)

Lemma find_insert_or_replace {A : Type} (key : A -> string) (r : A)
    (t : list A) :
  List.find (fun x => String.eqb (key x) (key r))
    (sql_insert_or_replace key r t) = Some r.
Proof.
  unfold sql_insert_or_replace, sql_delete.
  induction t as [|x t IH]; simpl.
  - by rewrite String.eqb_refl.
  - destruct (String.eqb (key x) (key r)) eqn:E; simpl; [exact IH|].
    by rewrite E.
Qed.

(** After an upsert the row of the account is the freshly built one: every
    column that the statement does not list is back at its default. *)
Lemma add_following_account_replaces (now : string) (a : account_data)
    (w : world) :
  find_following (ad_id a)
    (following_status (conn (fst (add_following_account now a w))))
  = Some (new_following_row now a).
Proof.
  unfold add_following_account, find_following. simpl.
  apply (find_insert_or_replace user_id (new_following_row now a)).
Qed.

Lemma add_following_account_resets (now : string) (a : account_data)
    (w : world) :
  exists r,
    find_following (ad_id a)
      (following_status (conn (fst (add_following_account now a w)))) = Some r
    /\ unfollowed_date r = None /\ unfollow_reason r = None
    /\ unfollow_score r = None /\ is_whitelisted r = Some 0
    /\ days_inactive r = None /\ check_count r = Some 1
    /\ first_seen_date r = Some now.
Proof.
  exists (new_following_row now a).
  split; [apply add_following_account_replaces | by repeat split].
Qed.

(** C1: the upsert is an INSERT OR REPLACE that lists seventeen columns, so
    it replaces the whole row: for account 42, unfollowed on 2024-06-01,
    the upsert of its user object puts unfollowed_date and unfollow_reason
    back to NULL, and takes score, probe results and first_seen_date with
    them. *)
Theorem C1_upsert_clears_unfollowed_date :
  unfollowed_date <$>
    find_following "42" (following_status (conn world_unfollowed))
  = Some (Some "2024-06-01T12:00:00+00:00") /\
  unfollowed_date <$>
    find_following "42"
      (following_status
         (conn (fst (add_following_account example_now bob world_unfollowed))))
  = Some None /\
  unfollow_score <$>
    find_following "42"
      (following_status
         (conn (fst (add_following_account example_now bob world_unfollowed))))
  = Some None.
Proof. repeat split; vm_compute; reflexivity. Qed.

(** ** Unfollow executor *)

Lemma execute_unfollows_loop now dry_run delete batch_id accounts w :
  execute_unfollows now dry_run delete batch_id accounts w =
  unfollow_loop now dry_run delete batch_id 0 accounts w 0 0.
Proof. by destruct accounts. Qed.

Lemma unfollow_loop_dry_run now delete batch_id accounts :
  forall i w success_count error_count,
    unfollow_loop now true delete batch_id i accounts w
      success_count error_count
    = (w, (success_count + Z.of_nat (length accounts), error_count)).
Proof.
  induction accounts as [|account rest IH]; intros i w s e; simpl.
  - by rewrite Z.add_0_r.
  - rewrite IH. do 2 f_equal. lia.
Qed.

(** C8: a dry run over n candidates returns the state it was given - no
    request sent to the gateway, no row of following_status changed, no row
    added to unfollow_log, nothing committed - and reports n successes and
    no error. *)
Theorem C8_dry_run_changes_nothing (now : string)
    (delete : nat -> string -> option Z) (batch_id : string)
    (accounts : list following_row) (w : world) :
  execute_unfollows now true delete batch_id accounts w
  = (w, (Z.of_nat (length accounts), 0)) /\
  requests (fst (execute_unfollows now true delete batch_id accounts w))
  = requests w /\
  following_status
    (conn (fst (execute_unfollows now true delete batch_id accounts w)))
  = following_status (conn w) /\
  unfollow_log
    (conn (fst (execute_unfollows now true delete batch_id accounts w)))
  = unfollow_log (conn w).
Proof.
  rewrite execute_unfollows_loop, unfollow_loop_dry_run. by repeat split.
Qed.

(** Five candidates in a dry run: five successes, and the state as it
    was. *)
Example dry_run_five :
  execute_unfollows example_now true delete_not_found "0a1b2c3d"
    (following_status (conn world_ranked)) world_ranked
  = (world_ranked, (5, 0)).
Proof. vm_compute. reflexivity. Qed.

(** A live run in which the gateway confirms the first unfollow and answers
    404 to the second: two successes, one log row, and only the confirmed
    account carries an unfollowed_date. *)
Example live_run_ok_then_not_found :
  let after :=
    execute_unfollows example_now false delete_ok_then_not_found "0a1b2c3d"
      [scored_row "2" 95 (Some 400); scored_row "3" 80 (Some 700)]
      world_ranked in
  snd after = (2, 0) /\
  map ul_user_id (unfollow_log (conn (fst after))) = ["2"] /\
  map (fun r => (user_id r, unfollowed_date r))
    (following_status (conn (fst after)))
  = [("1", None); ("2", Some example_now); ("3", None); ("4", None);
     ("42", None)].
Proof. repeat split; vm_compute; reflexivity. Qed.

(** The candidates before position [length pre] being processed without a
    429, the loop reaches the candidates behind them. *)
Lemma unfollow_loop_app now delete batch_id pre post :
  forall i w success_count error_count,
    (forall j a, pre !! j = Some a ->
                 delete (i + j)%nat (user_id a) <> Some 429) ->
    unfollow_loop now false delete batch_id i (pre ++ post) w
      success_count error_count
    = let '(w1, (s1, e1)) :=
        unfollow_loop now false delete batch_id i pre w
          success_count error_count in
      unfollow_loop now false delete batch_id (i + length pre) post w1 s1 e1.
Proof.
  induction pre as [|a pre IH]; intros i w s e Hno429.
  - simpl. by rewrite Nat.add_0_r.
  - assert (Hrest : forall j b, pre !! j = Some b ->
                      delete (S i + j)%nat (user_id b) <> Some 429).
    { intros j b Hj. specialize (Hno429 (S j) b Hj).
      by rewrite Nat.add_succ_r in Hno429. }
    assert (Hhead : delete i (user_id a) <> Some 429).
    { specialize (Hno429 0%nat a eq_refl). by rewrite Nat.add_0_r in Hno429. }
    simpl. replace (i + S (length pre))%nat with (S i + length pre)%nat by lia.
    destruct (delete i (user_id a)) as [code|]; [|by apply IH].
    destruct (code =? 200); [by apply IH|].
    destruct (code =? 404); [by apply IH|].
    destruct (Z.eqb_spec code 429) as [->|]; [done | by apply IH].
Qed.

(** C2, as the code has it: in a live run a candidate that is reached and
    whose unfollow request returns 404 is counted as a success; the request
    is sent, and the database is left as it was - no row is added to
    unfollow_log, and the account's row, unfollowed_date included, is not
    touched. *)
Theorem C2_not_found_counts_and_leaves_store (now : string)
    (delete : nat -> string -> option Z) (batch_id : string)
    (pre : list following_row) (c : following_row) (w : world) :
  (forall j a, pre !! j = Some a -> delete j (user_id a) <> Some 429) ->
  delete (length pre) (user_id c) = Some 404 ->
  let before := execute_unfollows now false delete batch_id pre w in
  let after := execute_unfollows now false delete batch_id (pre ++ [c]) w in
  conn (fst after) = conn (fst before) /\
  disk (fst after) = disk (fst before) /\
  requests (fst after) = DeleteFollowing (user_id c) :: requests (fst before) /\
  fst (snd after) = fst (snd before) + 1 /\
  snd (snd after) = snd (snd before).
Proof.
  intros Hno429 H404 before after. unfold before, after.
  rewrite !execute_unfollows_loop, unfollow_loop_app by exact Hno429.
  destruct (unfollow_loop now false delete batch_id 0 pre w 0 0)
    as [w1 [s1 e1]].
  simpl. rewrite H404. by simpl.
Qed.

Lemma C2_not_found_counts_and_leaves_store_witness :
  let before :=
    execute_unfollows example_now false delete_ok_then_not_found "0a1b2c3d"
      [scored_row "2" 95 (Some 400)] world_ranked in
  let after :=
    execute_unfollows example_now false delete_ok_then_not_found "0a1b2c3d"
      ([scored_row "2" 95 (Some 400)] ++ [scored_row "3" 80 (Some 700)])
      world_ranked in
  conn (fst after) = conn (fst before) /\
  disk (fst after) = disk (fst before) /\
  requests (fst after) = DeleteFollowing "3" :: requests (fst before) /\
  fst (snd after) = fst (snd before) + 1 /\
  snd (snd after) = snd (snd before).
Proof.
  apply (C2_not_found_counts_and_leaves_store example_now
           delete_ok_then_not_found "0a1b2c3d"
           [scored_row "2" 95 (Some 400)] (scored_row "3" 80 (Some 700))
           world_ranked).
  - intros [|j] a Hj; [|destruct j; discriminate].
    simpl. discriminate.
  - reflexivity.
Defined.

(** C2, as claimed, fails: account 3 is a candidate of the store, its
    unfollow request returns 404, the run counts one success and writes no
    log row, and the unfollowed_date of account 3 is still NULL. *)
Lemma C2_not_found_does_not_mark_terminal :
  let after :=
    execute_unfollows example_now false delete_not_found "0a1b2c3d"
      [scored_row "3" 80 (Some 700)] world_ranked in
  ~ (fst (snd after) = 1 /\
     (exists date,
        unfollowed_date <$>
          find_following "3" (following_status (conn (fst after)))
        = Some (Some date)) /\
     unfollow_log (conn (fst after)) = []).
Proof.
  intros after (_ & [date Hdate] & _). vm_compute in Hdate. discriminate.
Qed.

(** ** Activity prober *)

Section Prober.

Variable now : string.
Variable days_since : string -> option Z.
Variable get_tweets : nat -> string -> option tweets_response.

Lemma update_account_activity_days uid act w :
  update_account_activity now days_since uid act w =
  match activity_days days_since act with
  | Some days => (store_activity now uid act days w, true)
  | None => (w, false)
  end.
Proof.
  unfold update_account_activity, activity_days.
  destruct (act_last_tweet_date act) as [date|]; [|done].
  destruct (String.eqb date ""); [done|].
  by destruct (days_since date).
Qed.

(** An iteration whose response is not a 429 goes on with the next id. *)
Lemma check_loop_step i uid rest w checked_count :
  rate_limited (get_tweets i uid) = false ->
  check_loop now days_since get_tweets i (uid :: rest) w checked_count =
  check_loop now days_since get_tweets (S i) rest
    (probe_world now days_since uid (get_tweets i uid) w)
    (checked_count + if counted (get_tweets i uid) then 1 else 0).
Proof.
  intros H429. simpl. unfold probe_world, probe_write, counted.
  unfold rate_limited in H429.
  destruct (get_tweets i uid) as [resp|]; [|by rewrite Z.add_0_r].
  destruct (Z.eqb_spec (status_code resp) 200) as [E200|N200].
  - rewrite update_account_activity_days.
    by destruct (activity_days days_since (activity_of_response resp)).
  - destruct (Z.eqb_spec (status_code resp) 404) as [E404|N404]; [done|].
    destruct (Z.eqb_spec (status_code resp) 401) as [E401|N401]; [done|].
    rewrite H429. simpl. by rewrite Z.add_0_r.
Qed.

(** The iteration that gets a 429 sends its request and leaves the loop. *)
Lemma check_loop_stop i uid rest w checked_count :
  rate_limited (get_tweets i uid) = true ->
  check_loop now days_since get_tweets i (uid :: rest) w checked_count =
  (send (GetTweets uid) w, checked_count).
Proof.
  intros H429. simpl. unfold rate_limited in H429.
  destruct (get_tweets i uid) as [resp|]; [|discriminate].
  apply Z.eqb_eq in H429. rewrite H429. reflexivity.
Qed.






Lemma find_sql_update_same (f : following_row -> following_row)
    (uid : string) (t : list following_row) :
  (forall r, user_id (f r) = user_id r) ->
  find_following uid (sql_update (fun r => String.eqb (user_id r) uid) f t)
  = f <$> find_following uid t.
Proof.
  intros Hf. unfold find_following, sql_update.
  induction t as [|x t IH]; [done|]. simpl.
  destruct (String.eqb_spec (user_id x) uid) as [Hx|Hx].
  - rewrite Hf. by destruct (String.eqb_spec (user_id x) uid).
  - destruct (String.eqb_spec (user_id x) uid); [done | exact IH].
Qed.







End Prober.


(** The batch of ten ids whose fifth request gets a 429: four ids are
    counted, five requests are sent, the rows of ids 1 to 4 have their
    check_count raised to 2 and days_inactive set, and the rows of ids 5 to
    10 are the rows of the store before the run. *)
Example probe_ten_limit_at_fifth :
  let after :=
    check_account_activity example_now example_days_since
      get_tweets_limit_at_fifth ten_ids world_ten in
  snd after = 4 /\
  requests (fst after)
  = [GetTweets "5"; GetTweets "4"; GetTweets "3"; GetTweets "2";
     GetTweets "1"] /\
  map (fun r => (user_id r, check_count r, days_inactive r))
    (following_status (conn (fst after)))
  = [("1", Some 2, Some 200); ("2", Some 2, Some 200);
     ("3", Some 2, Some 200); ("4", Some 2, Some 200);
     ("5", Some 1, None); ("6", Some 1, None); ("7", Some 1, None);
     ("8", Some 1, None); ("9", Some 1, None); ("10", Some 1, None)] /\
  drop 4 (following_status (conn (fst after)))
  = drop 4 (following_status (conn world_ten)) /\
  map ac_user_id (activity_checks (conn (fst after))) = ["1"; "2"; "3"; "4"].
Proof. repeat split; vm_compute; reflexivity. Qed.

(** ** Whitelist guard *)

Lemma strip_at_digits (s : string) : py_isdigit s = true -> strip_at s = s.
Proof.
  destruct s as [|c rest]; [done|].
  unfold py_isdigit. simpl. intros H. apply andb_true_iff in H as [H _].
  destruct c as [[] [] [] [] [] [] [] []]; try reflexivity; discriminate.
Qed.

Lemma sql_update_none {A : Type} (p : A -> bool) (f : A -> A) (t : list A) :
  sql_rowcount p t = 0 -> sql_update p f t = t.
Proof.
  unfold sql_rowcount, sql_update. induction t as [|x t IH]; [done|].
  simpl. destruct (p x); simpl; [lia|]. intros H. by rewrite IH.
Qed.


Lemma sql_rowcount_nonneg {A : Type} (p : A -> bool) (t : list A) :
  0 <= sql_rowcount p t.
Proof. unfold sql_rowcount. lia. Qed.

Lemma elem_of_sql_delete {A : Type} (p : A -> bool) (t : list A) (x : A) :
  x ∈ sql_delete p t <-> x ∈ t /\ p x = false.
Proof.
  unfold sql_delete. rewrite !list_elem_of_In, filter_In, negb_true_iff. done.
Qed.

Lemma find_none_rowcount (uid : string) (t : list following_row) :
  find_following uid t = None ->
  sql_rowcount (fun r => String.eqb (user_id r) uid) t = 0.
Proof.
  unfold sql_rowcount, find_following. induction t as [|x t IH]; [done|].
  simpl. destruct (String.eqb (user_id x) uid); [done | exact IH].
Qed.


(** With a numeric identifier the removal works on the user id columns. *)
Lemma remove_from_whitelist_by_id (uid : string) (w : world) :
  py_isdigit uid = true ->
  remove_from_whitelist uid w =
  let w2 :=
    with_following
      (sql_update (fun r => String.eqb (user_id r) uid) clear_whitelisted
         (following_status (conn w)))
      (with_whitelist
         (sql_delete (fun e => String.eqb (wl_user_id e) uid)
            (whitelist (conn w))) w) in
  if 0 <? sql_rowcount (fun r => String.eqb (user_id r) uid)
            (following_status (conn w))
  then (commit w2, true) else (w2, false).
Proof.
  intros Hd. unfold remove_from_whitelist.
  rewrite (strip_at_digits uid Hd), Hd. reflexivity.
Qed.





(** The value returned is computed from the UPDATE on following_status, not
    from the DELETE on whitelist. *)
Example remove_non_member_followed :
  whitelist (conn world_scored) = [] /\
  snd (remove_from_whitelist "42" world_scored) = true.
Proof. split; reflexivity. Qed.

(** * Further properties *)

(** ** Score engine: range and monotonicity *)

Lemma inactivity_weight_int (z : Z) :
  inactivity_weight (PyInt z) =
  Ok (if 730 <? z then 100 else if 365 <? z then 80
      else if 180 <? z then 50 else if 90 <? z then 20 else 0).
Proof.
  unfold inactivity_weight; simpl.
  repeat (match goal with |- context [?a <? ?b] => destruct (a <? b) end;
          simpl; try reflexivity).
Qed.

Lemma inactivity_weight_range v d :
  inactivity_weight v = Ok d -> 0 <= d <= 100.
Proof.
  destruct v as [|b|z|s]; try discriminate.
  - destruct b; intros [= <-]; lia.
  - rewrite inactivity_weight_int.
    repeat (match goal with |- context [?a <? ?b] => destruct (a <? b) end);
      intros [= <-]; lia.
Qed.

Lemma follower_weight_range v f :
  follower_weight v = Ok f -> -20 <= f <= 30.
Proof.
  destruct v as [|b|z|s]; try discriminate.
  - destruct b; intros [= <-]; lia.
  - rewrite follower_weight_int.
    repeat (match goal with |- context [?a <? ?b] => destruct (a <? b) end);
      intros [= <-]; lia.
Qed.

Lemma tweet_weight_range v t :
  tweet_weight v = Ok t -> 0 <= t <= 25.
Proof.
  destruct v as [|b|z|s]; try discriminate.
  - destruct b; intros [= <-]; lia.
  - unfold tweet_weight; simpl.
    repeat (match goal with |- context [?a <? ?b] => destruct (a <? b) end;
            simpl); intros [= <-]; lia.
Qed.

Lemma quality_weight_range account : -40 <= quality_weight account <= 10.
Proof.
  unfold quality_weight.
  destruct (truthy (py_get account "verified")),
    (truthy (py_get account "protected")); lia.
Qed.

Lemma profile_weight_range account : 0 <= profile_weight account <= 15.
Proof.
  unfold profile_weight.
  match goal with |- context [if ?c then _ else _] => destruct c end; lia.
Qed.

Lemma score_bounds (account : gmap string pyval) (z : Z) :
  truthy (py_get account "is_whitelisted") = false ->
  _calculate_unfollow_score account = Ok z ->
  0 <= z <= 180.
Proof.
  unfold _calculate_unfollow_score. intros ->.
  destruct (inactivity_weight _) as [d|] eqn:Ed; simpl; [|discriminate].
  destruct (follower_weight _) as [f|] eqn:Ef; simpl; [|discriminate].
  destruct (tweet_weight _) as [t|] eqn:Et; simpl; [|discriminate].
  intros [= <-].
  apply inactivity_weight_range in Ed. apply follower_weight_range in Ef.
  apply tweet_weight_range in Et.
  pose proof (quality_weight_range account).
  pose proof (profile_weight_range account). lia.
Qed.

(** X1: the score of an account that is not whitelisted lies between 0
    and 180. *)
Theorem score_range (account : gmap string pyval) (z : Z) :
  truthy (py_get account "is_whitelisted") = false ->
  _calculate_unfollow_score account = Ok z ->
  0 <= z <= 180.
Proof. apply score_bounds. Qed.

Lemma score_range_witness :
  0 <= 180 <= 180.
Proof.
  apply (score_range abandoned 180); reflexivity.
Defined.

Lemma inactivity_weight_mono (d1 d2 w1 w2 : Z) :
  d1 <= d2 ->
  inactivity_weight (PyInt d1) = Ok w1 ->
  inactivity_weight (PyInt d2) = Ok w2 ->
  w1 <= w2.
Proof.
  rewrite !inactivity_weight_int. intros Hle [= <-] [= <-].
  repeat match goal with
         | |- context [Z.ltb ?a ?b] => destruct (Z.ltb_spec a b)
         end; lia.
Qed.

Lemma py_get_insert_ne (account : gmap string pyval) (k k' : string) v :
  k <> k' -> py_get (<[ k := v ]> account) k' = py_get account k'.
Proof. intros H. unfold py_get. by rewrite lookup_insert_ne. Qed.

Lemma py_get_default_insert_ne (account : gmap string pyval) (k k' : string)
    v dflt :
  k <> k' ->
  py_get_default (<[ k := v ]> account) k' dflt = py_get_default account k' dflt.
Proof. intros H. unfold py_get_default. by rewrite lookup_insert_ne. Qed.

Lemma py_get_default_insert (account : gmap string pyval) (k : string) v dflt :
  py_get_default (<[ k := v ]> account) k dflt = v.
Proof. unfold py_get_default. by rewrite lookup_insert_eq. Qed.

(** X2: with every other field fixed, an account that has been inactive
    for longer never scores lower. *)
Theorem score_monotone_in_days_inactive
    (account : gmap string pyval) (d1 d2 z1 z2 : Z) :
  d1 <= d2 ->
  _calculate_unfollow_score (<[ "days_inactive" := PyInt d1 ]> account) = Ok z1 ->
  _calculate_unfollow_score (<[ "days_inactive" := PyInt d2 ]> account) = Ok z2 ->
  z1 <= z2.
Proof.
  intros Hle. unfold _calculate_unfollow_score, quality_weight, profile_weight.
  rewrite !py_get_default_insert.
  rewrite !py_get_insert_ne, !py_get_default_insert_ne by done.
  destruct (truthy (py_get account "is_whitelisted")).
  { intros [= <-] [= <-]. lia. }
  destruct (inactivity_weight (PyInt d1)) as [w1|] eqn:E1; [|discriminate].
  destruct (inactivity_weight (PyInt d2)) as [w2|] eqn:E2; [|discriminate].
  pose proof (inactivity_weight_mono d1 d2 w1 w2 Hle E1 E2).
  simpl.
  destruct (follower_weight _) as [f|]; simpl; [|discriminate].
  destruct (tweet_weight _) as [t|]; simpl; [|discriminate].
  intros [= <-] [= <-]. lia.
Qed.

Lemma score_monotone_in_days_inactive_witness :
  30 <= 130.
Proof.
  apply (score_monotone_in_days_inactive
           (<[ "follower_count" := PyInt 120 ]>
              (<[ "tweet_count" := PyInt 400 ]> ∅)) 89 800);
    [lia | reflexivity | reflexivity].
Defined.

(** ** Score engine: recomputing all scores *)

Lemma score_of_row (r : following_row) :
  _calculate_unfollow_score (score_dict r) =
  if truthy (py_of_int (is_whitelisted r)) then Ok SENTINEL_NEVER else
  d ← inactivity_weight (py_of_int (days_inactive r));
  f ← follower_weight (py_of_int (follower_count r));
  t ← tweet_weight (py_of_int (tweet_count r));
  Ok (Z.max 0 (0 + d + f + quality_weight (score_dict r)
               + profile_weight (score_dict r) + t)).
Proof. reflexivity. Qed.

Lemma score_raises_TypeError (account : gmap string pyval) (e : pyexc) :
  _calculate_unfollow_score account = Raise e -> e = TypeError.
Proof.
  unfold _calculate_unfollow_score.
  destruct (truthy _); [discriminate|].
  assert (Hgt : forall v n e', py_gt v n = Raise e' -> e' = TypeError).
  { intros [] ? ?; simpl; congruence. }
  assert (Hlt : forall v n e', py_lt v n = Raise e' -> e' = TypeError).
  { intros [] ? ?; simpl; congruence. }
  unfold inactivity_weight, follower_weight, tweet_weight.
  repeat match goal with
         | |- context [py_gt ?v ?n] =>
             let E := fresh "E" in
             destruct (py_gt v n) as [[]|] eqn:E; simpl;
             [ | | apply Hgt in E; congruence ]
         | |- context [py_lt ?v ?n] =>
             let E := fresh "E" in
             destruct (py_lt v n) as [[]|] eqn:E; simpl;
             [ | | apply Hlt in E; congruence ]
         end; discriminate.
Qed.

Lemma score_defined_iff_scorable (r : following_row) :
  (exists z, _calculate_unfollow_score (score_dict r) = Ok z) <->
  scorable r = true.
Proof.
  rewrite score_of_row. unfold scorable.
  destruct (truthy (py_of_int (is_whitelisted r))); simpl;
    [split; [done | eauto] |].
  destruct (days_inactive r) as [d|]; simpl;
    [|split; [intros [? [=]] | discriminate]].
  destruct (inactivity_weight_total (PyInt d) eq_refl) as [wd ->]. simpl.
  destruct (follower_count r) as [f|]; simpl;
    [|split; [intros [? [=]] | discriminate]].
  destruct (follower_weight_total (PyInt f) eq_refl) as [wf ->]. simpl.
  destruct (tweet_count r) as [t|]; simpl;
    [|split; [intros [? [=]] | discriminate]].
  destruct (tweet_weight_total (PyInt t) eq_refl) as [wt ->]. simpl.
  split; [done | eauto].
Qed.

Lemma with_following_id (w : world) :
  with_following (following_status (conn w)) w = w.
Proof. by destruct w as [[] ? ?]. Qed.

Lemma unique_key_eq (t : list following_row) (r a : following_row) :
  NoDup (map user_id t) -> r ∈ t -> a ∈ t -> user_id r = user_id a -> r = a.
Proof.
  induction t as [|x t IH]; simpl; intros Hnd Hr Ha Hkey.
  - by apply elem_of_nil in Hr.
  - apply NoDup_cons in Hnd as [Hx Hnd].
    apply elem_of_cons in Hr as [->|Hr]; apply elem_of_cons in Ha as [->|Ha].
    + done.
    + exfalso. apply Hx. rewrite Hkey. by apply (list_elem_of_fmap_2 user_id).
    + exfalso. apply Hx. rewrite <- Hkey. by apply (list_elem_of_fmap_2 user_id).
    + by apply IH.
Qed.

Lemma NoDup_keys_filter {A : Type} (key : A -> string) (p : A -> bool)
    (t : list A) :
  NoDup (map key t) -> NoDup (map key (List.filter p t)).
Proof.
  induction t as [|x t IH]; simpl; [done|]. intros Hnd.
  apply NoDup_cons in Hnd as [Hx Hnd]. destruct (p x); simpl; [|by apply IH].
  apply NoDup_cons. split; [|by apply IH].
  intros Hin. apply Hx. apply list_elem_of_fmap in Hin as (y & -> & Hy).
  apply list_elem_of_In, filter_In in Hy as [Hy _].
  apply (list_elem_of_fmap_2 key). by apply list_elem_of_In.
Qed.

Lemma keys_sql_update (p : following_row -> bool)
    (f : following_row -> following_row) (t : list following_row) :
  (forall r, user_id (f r) = user_id r) ->
  map user_id (sql_update p f t) = map user_id t.
Proof.
  intros Hf. unfold sql_update. rewrite map_map. apply map_ext.
  intros r. by destruct (p r).
Qed.

Lemma score_loop_scorable (accounts : list following_row) :
  forall w updated,
    Forall (fun a => scorable a = true) accounts ->
    score_loop accounts w updated =
    (with_following
       (fold_left score_step accounts (following_status (conn w))) w,
     Ok (updated + Z.of_nat (length accounts))).
Proof.
  induction accounts as [|a accounts IH]; intros w n Hall.
  - simpl. by rewrite with_following_id, Z.add_0_r.
  - apply Forall_cons in Hall as [Ha Hall].
    apply score_defined_iff_scorable in Ha as [z Hz].
    cbn [score_loop fold_left length]. rewrite Hz, IH by done.
    assert (Hstep : score_step (following_status (conn w)) a =
                    sql_update
                      (fun r => String.eqb (user_id r) (user_id a))
                      (set_unfollow_score z) (following_status (conn w))).
    { unfold score_step, score_of. by rewrite Hz. }
    rewrite Hstep. unfold with_following. cbn [conn following_status].
    do 2 f_equal. lia.
Qed.

Lemma fold_score_step_rows (accounts : list following_row) :
  forall t,
    fold_left score_step accounts t
    = map (fun r => fold_left score_row_step accounts r) t.
Proof.
  induction accounts as [|a accounts IH]; intros t; simpl.
  - by rewrite map_id.
  - rewrite IH. unfold score_step, sql_update. by rewrite map_map.
Qed.

Lemma fold_score_row_step_miss (accounts : list following_row) :
  forall r,
    (forall a, a ∈ accounts -> user_id a <> user_id r) ->
    fold_left score_row_step accounts r = r.
Proof.
  induction accounts as [|x accounts IH]; intros r Hmiss; simpl; [done|].
  unfold score_row_step at 2.
  destruct (String.eqb_spec (user_id r) (user_id x)) as [E|_].
  - exfalso. apply (Hmiss x); [apply list_elem_of_here | done].
  - apply IH. intros a Ha. apply Hmiss. by apply list_elem_of_further.
Qed.

Lemma fold_score_row_step_hit (accounts : list following_row) :
  forall r a,
    NoDup (map user_id accounts) -> a ∈ accounts ->
    user_id a = user_id r ->
    fold_left score_row_step accounts r = set_unfollow_score (score_of a) r.
Proof.
  induction accounts as [|x accounts IH]; intros r a Hnd Ha Hkey; simpl.
  - by apply elem_of_nil in Ha.
  - apply NoDup_cons in Hnd as [Hx Hnd]. unfold score_row_step at 2.
    apply elem_of_cons in Ha as [->|Ha].
    + rewrite Hkey, String.eqb_refl. apply fold_score_row_step_miss.
      intros b Hb Hbkey. apply Hx. simpl in Hbkey. rewrite Hkey, <- Hbkey.
      by apply (list_elem_of_fmap_2 user_id).
    + destruct (String.eqb_spec (user_id r) (user_id x)) as [E|_].
      * exfalso. apply Hx. rewrite <- E, <- Hkey.
        by apply (list_elem_of_fmap_2 user_id).
      * by apply IH.
Qed.

Lemma rescored_scorable (r : following_row) :
  unfollowed_date r = None -> scorable r = true ->
  rescored r = set_unfollow_score (score_of r) r.
Proof.
  intros Hd Hs. unfold rescored, score_of. rewrite Hd. simpl.
  apply score_defined_iff_scorable in Hs as [z ->]. done.
Qed.

Lemma calculate_unfollow_scores_eq (w : world) :
  NoDup (map user_id (following_status (conn w))) ->
  (forall r, r ∈ following_status (conn w) ->
             unfollowed_date r = None -> scorable r = true) ->
  calculate_unfollow_scores w =
  (commit (with_following (map rescored (following_status (conn w))) w),
   Ok (sql_count (fun r => sql_is_null (unfollowed_date r))
         (following_status (conn w)))).
Proof.
  intros Hnd Hscorable. unfold calculate_unfollow_scores.
  set (t := following_status (conn w)) in *.
  set (accounts := List.filter (fun r => sql_is_null (unfollowed_date r)) t).
  assert (Hacc : forall a, a ∈ accounts <-> a ∈ t /\ unfollowed_date a = None).
  { intros a. unfold accounts. rewrite !list_elem_of_In, filter_In.
    unfold sql_is_null.
    destruct (unfollowed_date a); split; intros [H1 H2]; by split. }
  rewrite score_loop_scorable.
  2:{ apply Forall_forall. intros a Ha. apply Hacc in Ha as [Ha Hd]. auto. }
  fold t. rewrite fold_score_step_rows. simpl. unfold sql_count. fold accounts.
  do 3 f_equal. apply map_ext_in. intros r Hr. apply list_elem_of_In in Hr.
  destruct (unfollowed_date r) as [date|] eqn:Hd.
  - unfold rescored. rewrite Hd. simpl.
    apply fold_score_row_step_miss. intros a Ha Hkey.
    apply Hacc in Ha as [Ha Hda].
    assert (a = r) by (by apply (unique_key_eq t)). congruence.
  - rewrite rescored_scorable by auto.
    apply fold_score_row_step_hit; [|by apply Hacc|done].
    by apply NoDup_keys_filter.
Qed.

(** X3: the score of a row read from the table is defined exactly when the
    row is whitelisted or its days_inactive, follower_count and tweet_count
    are all not NULL; when it is not defined the exception is TypeError. *)
Theorem row_score_defined_iff (r : following_row) :
  ((exists z, _calculate_unfollow_score (score_dict r) = Ok z) <->
   scorable r = true) /\
  (scorable r = false ->
   _calculate_unfollow_score (score_dict r) = Raise TypeError).
Proof.
  split; [apply score_defined_iff_scorable|].
  intros Hs. destruct (_calculate_unfollow_score (score_dict r)) as [z|e] eqn:E.
  - assert (scorable r = true) by (apply score_defined_iff_scorable; eauto).
    congruence.
  - by rewrite (score_raises_TypeError _ _ E).
Qed.

Lemma row_score_defined_iff_witness :
  _calculate_unfollow_score
    (score_dict (new_following_row example_now (plain_user "5")))
  = Raise TypeError.
Proof.
  apply (proj2 (row_score_defined_iff
                  (new_following_row example_now (plain_user "5")))).
  reflexivity.
Defined.

Lemma rescored_user_id r : user_id (rescored r) = user_id r.
Proof.
  unfold rescored. destruct (sql_is_null _); [|done].
  by destruct (_calculate_unfollow_score _).
Qed.

Lemma rescored_unfollowed_date r :
  unfollowed_date (rescored r) = unfollowed_date r.
Proof.
  unfold rescored. destruct (sql_is_null _); [|done].
  by destruct (_calculate_unfollow_score _).
Qed.

Lemma rescored_score_dict r : score_dict (rescored r) = score_dict r.
Proof.
  unfold rescored. destruct (sql_is_null _); [|done].
  by destruct (_calculate_unfollow_score _).
Qed.

Lemma rescored_scorable_eq r : scorable (rescored r) = scorable r.
Proof.
  unfold rescored. destruct (sql_is_null _); [|done].
  by destruct (_calculate_unfollow_score _).
Qed.

Lemma rescored_idempotent r : rescored (rescored r) = rescored r.
Proof.
  unfold rescored at 1. rewrite rescored_unfollowed_date, rescored_score_dict.
  unfold rescored. destruct (sql_is_null (unfollowed_date r)); [|done].
  by destruct (_calculate_unfollow_score (score_dict r)).
Qed.

Lemma sql_count_map {A : Type} (p : A -> bool) (f : A -> A) (t : list A) :
  (forall x, p (f x) = p x) -> sql_count p (map f t) = sql_count p t.
Proof.
  intros Hp. unfold sql_count. f_equal.
  induction t as [|x t IH]; simpl; [done|].
  rewrite Hp. destruct (p x); simpl; by rewrite IH.
Qed.

(** X4: on a table with unique user ids in which every followed row can be
    scored, [calculate_unfollow_scores] returns the number of followed rows
    and commits; every unfollowed row is left as it was, every followed
    whitelisted row gets the score SENTINEL_NEVER, and every other followed
    row gets the score of its own columns, between 0 and 180. *)
Theorem calculate_unfollow_scores_rescores (w : world) :
  NoDup (map user_id (following_status (conn w))) ->
  (forall r, r ∈ following_status (conn w) ->
             unfollowed_date r = None -> scorable r = true) ->
  let result := calculate_unfollow_scores w in
  snd result
  = Ok (sql_count (fun r => sql_is_null (unfollowed_date r))
          (following_status (conn w))) /\
  disk (fst result) = conn (fst result) /\
  following_status (conn (fst result))
  = map rescored (following_status (conn w)) /\
  (forall r, unfollowed_date r <> None -> rescored r = r) /\
  (forall r, unfollowed_date r = None ->
             truthy (py_of_int (is_whitelisted r)) = true ->
             unfollow_score (rescored r) = Some SENTINEL_NEVER) /\
  (forall r, unfollowed_date r = None -> scorable r = true ->
             truthy (py_of_int (is_whitelisted r)) = false ->
             exists z, _calculate_unfollow_score (score_dict r) = Ok z /\
                       unfollow_score (rescored r) = Some z /\
                       0 <= z <= 180).
Proof.
  intros Hnd Hs result. unfold result.
  rewrite calculate_unfollow_scores_eq by done. simpl.
  split; [done|]. split; [done|]. split; [done|]. split; [|split].
  - intros r Hr. unfold rescored. by destruct (unfollowed_date r).
  - intros r Hd Hwl. unfold rescored. rewrite Hd, score_of_row, Hwl. done.
  - intros r Hd Hsc Hwl.
    destruct (proj2 (score_defined_iff_scorable r) Hsc) as [z Hz].
    exists z. split; [done|]. split.
    + unfold rescored. by rewrite Hd, Hz.
    + apply (score_bounds (score_dict r)); [exact Hwl | done].
Qed.

Lemma world_probed_unique_keys :
  NoDup (map user_id (following_status (conn world_probed))).
Proof. by apply (bool_decide_unpack _). Qed.

Lemma world_probed_scorable (r : following_row) :
  r ∈ following_status (conn world_probed) ->
  unfollowed_date r = None -> scorable r = true.
Proof.
  revert r.
  apply (proj1 (Forall_forall
                  (fun r => unfollowed_date r = None -> scorable r = true) _)).
  repeat (constructor; [intros Hd; try reflexivity; discriminate|]).
  constructor.
Qed.

Lemma calculate_unfollow_scores_rescores_witness :
  snd (calculate_unfollow_scores world_probed) = Ok 3 /\
  map unfollow_score
    (following_status (conn (fst (calculate_unfollow_scores world_probed))))
  = [Some 155; Some 0; Some (-1000); Some 80].
Proof.
  destruct (calculate_unfollow_scores_rescores world_probed
              world_probed_unique_keys world_probed_scorable)
    as (Hcount & _ & Htable & _).
  split.
  - rewrite Hcount. reflexivity.
  - rewrite Htable. reflexivity.
Defined.

(** X5: recomputing the scores twice is recomputing them once: on such a
    table the second run returns the same count and leaves the state of the
    first run as it is. *)
Theorem calculate_unfollow_scores_idempotent (w : world) :
  NoDup (map user_id (following_status (conn w))) ->
  (forall r, r ∈ following_status (conn w) ->
             unfollowed_date r = None -> scorable r = true) ->
  calculate_unfollow_scores (fst (calculate_unfollow_scores w))
  = calculate_unfollow_scores w.
Proof.
  intros Hnd Hs. rewrite (calculate_unfollow_scores_eq w) by done. simpl.
  rewrite calculate_unfollow_scores_eq; simpl.
  - rewrite map_map. rewrite (map_ext _ rescored) by apply rescored_idempotent.
    rewrite sql_count_map; [done|].
    intros r. by rewrite rescored_unfollowed_date.
  - rewrite map_map. rewrite (map_ext _ user_id) by apply rescored_user_id.
    done.
  - intros r' Hr' Hd. apply list_elem_of_fmap in Hr' as (r & -> & Hr).
    rewrite rescored_scorable_eq. rewrite rescored_unfollowed_date in Hd.
    auto.
Qed.

Lemma calculate_unfollow_scores_idempotent_witness :
  calculate_unfollow_scores (fst (calculate_unfollow_scores world_probed))
  = calculate_unfollow_scores world_probed.
Proof.
  apply calculate_unfollow_scores_idempotent.
  - exact world_probed_unique_keys.
  - exact world_probed_scorable.
Defined.

Lemma score_loop_raises (accounts : list following_row) :
  forall w updated,
    (exists a, a ∈ accounts /\ scorable a = false) ->
    snd (score_loop accounts w updated) = Raise TypeError.
Proof.
  induction accounts as [|x accounts IH]; intros w n (a & Ha & Hs).
  - by apply elem_of_nil in Ha.
  - cbn [score_loop].
    destruct (_calculate_unfollow_score (score_dict x)) as [z|e] eqn:E.
    + apply IH. exists a. split; [|done].
      apply elem_of_cons in Ha as [->|Ha]; [|done].
      assert (scorable x = true) by (apply score_defined_iff_scorable; eauto).
      congruence.
    + simpl. by rewrite (score_raises_TypeError _ _ E).
Qed.


(** ** Account store: lookup, frame, unique keys *)


Lemma keys_insert_or_replace (r : following_row) (t : list following_row) :
  NoDup (map user_id t) ->
  NoDup (map user_id (sql_insert_or_replace user_id r t)).
Proof.
  intros Hnd. unfold sql_insert_or_replace, sql_delete.
  rewrite map_app. apply NoDup_app. split; [|split].
  - by apply NoDup_keys_filter.
  - intros k Hk Hr. simpl in Hr. apply list_elem_of_singleton in Hr as ->.
    apply list_elem_of_fmap in Hk as (x & Hx & Hin).
    apply list_elem_of_In, filter_In in Hin as [_ Hin].
    apply negb_true_iff in Hin.
    destruct (String.eqb_spec (user_id x) (user_id r)); congruence.
  - simpl. apply NoDup_singleton.
Qed.






(** ** Whitelist guard: adding *)






Lemma elem_of_sql_update {A : Type} (p : A -> bool) (f : A -> A) (t : list A)
    (y : A) :
  y ∈ sql_update p f t ->
  exists x, x ∈ t /\ y = if p x then f x else x.
Proof.
  unfold sql_update. intros Hy.
  apply (list_elem_of_fmap (fun r => if p r then f r else r)) in Hy
    as (x & -> & Hx). eauto.
Qed.

(** X10: once an account is added to the whitelist, the candidate query
    returns no row with its user id, for every limit and every threshold -
    also a threshold below SENTINEL_NEVER. *)
Theorem whitelisted_never_candidate (now uid uname reason : string)
    (limit min_score : Z) (w : world) :
  Forall (fun r => user_id r <> uid)
    (get_unfollow_candidates limit min_score
       (fst (add_to_whitelist now uid uname reason w))).
Proof.
  apply Forall_forall. intros r Hr Hkey.
  apply candidates_qualify in Hr as [Hin Hc].
  apply is_candidate_spec in Hc as (_ & Hwl & _).
  simpl in Hin. apply elem_of_sql_update in Hin as (x & Hx & ->).
  destruct (String.eqb_spec (user_id x) uid) as [E|N]; [discriminate|done].
Qed.



(** ** Unfollow executor: counts, abort, terminal state *)

Ltac unfollow_loop_next IH :=
  match goal with
  | |- context [unfollow_loop ?n ?d ?del ?b ?i ?acc ?w1 ?s1 ?e1] =>
      let IH' := fresh "IH" in
      let Hlog := fresh "Hlog" in
      let Hkeys := fresh "Hkeys" in
      pose proof (IH i w1 s1 e1) as IH'; cbv zeta in IH';
      set (res := unfollow_loop n d del b i acc w1 s1 e1) in *;
      destruct IH' as (? & ? & ? & Hlog & Hkeys);
      cbn [conn send unfollow_log fst log_unfollow commit with_following
           with_unfollow_log following_status] in Hlog, Hkeys;
      try rewrite length_app in Hlog;
      try rewrite keys_sql_update in Hkeys by done;
      cbn [length] in Hlog;
      repeat split; try lia; done
  end.

Lemma unfollow_loop_counts now dry_run delete batch_id accounts :
  forall i w s e,
    let result := unfollow_loop now dry_run delete batch_id i accounts w s e in
    s <= fst (snd result) /\ e <= snd (snd result) /\
    (fst (snd result) - s) + (snd (snd result) - e)
    <= Z.of_nat (length accounts) /\
    Z.of_nat (length (unfollow_log (conn (fst result))))
    <= Z.of_nat (length (unfollow_log (conn w))) + (fst (snd result) - s) /\
    map user_id (following_status (conn (fst result)))
    = map user_id (following_status (conn w)).
Proof.
  induction accounts as [|a accounts IH]; intros i w s e; cbv zeta.
  - simpl. repeat split; lia.
  - cbn [unfollow_loop length]. destruct dry_run; [unfollow_loop_next IH|].
    destruct (delete i (user_id a)) as [code|]; [|unfollow_loop_next IH].
    destruct (code =? 200); [unfollow_loop_next IH|].
    destruct (code =? 404); [unfollow_loop_next IH|].
    destruct (code =? 429); [|unfollow_loop_next IH].
    simpl. repeat split; lia.
Qed.

(** X12: whatever the gateway answers, a run over n candidates reports
    successes and errors that add up to at most n, adds at most one log row
    per reported success, and neither adds nor removes a row of
    following_status. *)
Theorem execute_unfollows_counts (now : string) (dry_run : bool)
    (delete : nat -> string -> option Z) (batch_id : string)
    (accounts : list following_row) (w : world) :
  let result := execute_unfollows now dry_run delete batch_id accounts w in
  0 <= fst (snd result) /\ 0 <= snd (snd result) /\
  fst (snd result) + snd (snd result) <= Z.of_nat (length accounts) /\
  Z.of_nat (length (unfollow_log (conn (fst result))))
  <= Z.of_nat (length (unfollow_log (conn w))) + fst (snd result) /\
  map user_id (following_status (conn (fst result)))
  = map user_id (following_status (conn w)).
Proof.
  intros result. unfold result. rewrite execute_unfollows_loop.
  pose proof (unfollow_loop_counts now dry_run delete batch_id accounts
                0%nat w 0 0) as H.
  simpl in H. destruct H as (? & ? & ? & ? & ?). repeat split; try lia; done.
Qed.

(** X13: in a live run, when the request for a candidate is the first to
    get a 429, the run ends there: the database and the counts are those of
    the run over the candidates before it, the request of that candidate is
    the last one sent, and no candidate behind it is looked at. *)
Theorem execute_unfollows_rate_limit_stops (now : string)
    (delete : nat -> string -> option Z) (batch_id : string)
    (pre post : list following_row) (c : following_row) (w : world) :
  (forall j a, pre !! j = Some a -> delete j (user_id a) <> Some 429) ->
  delete (length pre) (user_id c) = Some 429 ->
  let before := execute_unfollows now false delete batch_id pre w in
  execute_unfollows now false delete batch_id (pre ++ c :: post) w
  = (send (DeleteFollowing (user_id c)) (fst before), snd before).
Proof.
  intros Hno429 H429 before. unfold before.
  rewrite !execute_unfollows_loop, unfollow_loop_app by exact Hno429.
  destruct (unfollow_loop now false delete batch_id 0 pre w 0 0)
    as [w1 [s1 e1]].
  simpl. rewrite H429. reflexivity.
Qed.

Lemma execute_unfollows_rate_limit_stops_witness :
  execute_unfollows example_now false delete_ok_then_limited "0a1b2c3d"
    ([scored_row "2" 95 (Some 400)] ++
     scored_row "3" 80 (Some 700) :: [scored_row "1" 80 (Some 200)])
    world_ranked
  = (send (DeleteFollowing "3")
       (fst (execute_unfollows example_now false delete_ok_then_limited
               "0a1b2c3d" [scored_row "2" 95 (Some 400)] world_ranked)),
     snd (execute_unfollows example_now false delete_ok_then_limited
            "0a1b2c3d" [scored_row "2" 95 (Some 400)] world_ranked)).
Proof.
  apply (execute_unfollows_rate_limit_stops example_now
           delete_ok_then_limited "0a1b2c3d"
           [scored_row "2" 95 (Some 400)] [scored_row "1" 80 (Some 200)]
           (scored_row "3" 80 (Some 700)) world_ranked).
  - intros [|j] a Hj; [|destruct j; discriminate].
    simpl. discriminate.
  - reflexivity.
Defined.

Lemma log_unfollow_terminal now (k : string) account reason batch_id w :
  Forall (fun r => user_id r = k -> unfollowed_date r <> None)
    (following_status (conn w)) ->
  Forall (fun r => user_id r = k -> unfollowed_date r <> None)
    (following_status (conn (fst (log_unfollow now account reason batch_id w)))).
Proof.
  intros H. simpl. unfold sql_update. apply Forall_fmap.
  eapply Forall_impl; [exact H|]. intros r Hr. simpl.
  by destruct (String.eqb (user_id r) (user_id account)).
Qed.

Lemma log_unfollow_marks now account reason batch_id w :
  Forall (fun r => user_id r = user_id account -> unfollowed_date r <> None)
    (following_status (conn (fst (log_unfollow now account reason batch_id w)))).
Proof.
  simpl. unfold sql_update. apply Forall_fmap. apply Forall_forall.
  intros r _. simpl.
  destruct (String.eqb_spec (user_id r) (user_id account)); [done|].
  simpl. congruence.
Qed.

Lemma unfollow_loop_terminal now dry_run delete batch_id (k : string) accounts :
  forall i w s e,
    Forall (fun r => user_id r = k -> unfollowed_date r <> None)
      (following_status (conn w)) ->
    Forall (fun r => user_id r = k -> unfollowed_date r <> None)
      (following_status
         (conn (fst (unfollow_loop now dry_run delete batch_id i accounts
                       w s e)))).
Proof.
  induction accounts as [|a accounts IH]; intros i w s e H; [done|].
  cbn [unfollow_loop]. destruct dry_run; [by apply IH|].
  destruct (delete i (user_id a)) as [code|]; [|by apply IH].
  destruct (code =? 200).
  { apply IH. by apply (log_unfollow_terminal now k a). }
  destruct (code =? 404); [by apply IH|].
  destruct (code =? 429); [done | by apply IH].
Qed.

(** X14: in a live run, an account whose unfollow request is reached and
    confirmed with 200 is never returned by the candidate query again,
    whatever the run does with the candidates behind it. *)
Theorem unfollowed_never_candidate_again (now : string)
    (delete : nat -> string -> option Z) (batch_id : string)
    (pre post : list following_row) (c : following_row) (w : world)
    (limit min_score : Z) :
  (forall j a, pre !! j = Some a -> delete j (user_id a) <> Some 429) ->
  delete (length pre) (user_id c) = Some 200 ->
  Forall (fun r => user_id r <> user_id c)
    (get_unfollow_candidates limit min_score
       (fst (execute_unfollows now false delete batch_id
               (pre ++ c :: post) w))).
Proof.
  intros Hno429 H200.
  assert (Hterm :
    Forall (fun r => user_id r = user_id c -> unfollowed_date r <> None)
      (following_status
         (conn (fst (execute_unfollows now false delete batch_id
                       (pre ++ c :: post) w))))).
  { rewrite execute_unfollows_loop, unfollow_loop_app by exact Hno429.
    destruct (unfollow_loop now false delete batch_id 0 pre w 0 0)
      as [w1 [s1 e1]].
    cbn [unfollow_loop Nat.add]. rewrite H200. simpl Z.eqb. cbv iota.
    apply unfollow_loop_terminal. apply log_unfollow_marks. }
  apply Forall_forall. intros r Hr Hkey.
  apply candidates_qualify in Hr as [Hin Hc].
  apply is_candidate_spec in Hc as (Hd & _).
  rewrite Forall_forall in Hterm. by apply (Hterm r Hin Hkey).
Qed.

Lemma unfollowed_never_candidate_again_witness :
  Forall (fun r => user_id r <> "2")
    (get_unfollow_candidates 100 50
       (fst (execute_unfollows example_now false delete_ok_then_not_found
               "0a1b2c3d"
               ([] ++ scored_row "2" 95 (Some 400)
                   :: [scored_row "3" 80 (Some 700)])
               world_ranked))).
Proof.
  apply (unfollowed_never_candidate_again example_now
           delete_ok_then_not_found "0a1b2c3d" []
           [scored_row "3" 80 (Some 700)] (scored_row "2" 95 (Some 400))
           world_ranked 100 50).
  - intros j a Hj. discriminate.
  - reflexivity.
Defined.

(** ** Activity prober: counts, frame, unknown activity *)

Section ProberFrame.

Variable now : string.
Variable days_since : string -> option Z.
Variable get_tweets : nat -> string -> option tweets_response.

Lemma probe_world_frame uid resp w :
  map decision_state
    (following_status (conn (probe_world now days_since uid resp w)))
  = map decision_state (following_status (conn w)) /\
  whitelist (conn (probe_world now days_since uid resp w))
  = whitelist (conn w) /\
  unfollow_log (conn (probe_world now days_since uid resp w))
  = unfollow_log (conn w) /\
  (exists added,
     activity_checks (conn (probe_world now days_since uid resp w))
     = activity_checks (conn w) ++ added) /\
  requests (probe_world now days_since uid resp w)
  = GetTweets uid :: requests w.
Proof.
  unfold probe_world.
  destruct (probe_write days_since resp) as [[act days]|]; simpl.
  - repeat split; [|by eexists].
    unfold sql_update. rewrite map_map. apply map_ext. intros r.
    by destruct (String.eqb (user_id r) uid).
  - repeat split. exists []. by rewrite app_nil_r.
Qed.

Lemma check_loop_frame_all user_ids :
  forall i w checked_count,
    let result :=
      check_loop now days_since get_tweets i user_ids w checked_count in
    checked_count <= snd result <= checked_count + Z.of_nat (length user_ids)
    /\
    map decision_state (following_status (conn (fst result)))
    = map decision_state (following_status (conn w)) /\
    whitelist (conn (fst result)) = whitelist (conn w) /\
    unfollow_log (conn (fst result)) = unfollow_log (conn w) /\
    (exists added,
       activity_checks (conn (fst result))
       = activity_checks (conn w) ++ added) /\
    (exists sent,
       requests (fst result) = sent ++ requests w /\
       Forall (fun c => exists u, u ∈ user_ids /\ c = GetTweets u) sent /\
       snd result - checked_count <= Z.of_nat (length sent) /\
       (length sent <= length user_ids)%nat).
Proof.
  induction user_ids as [|uid user_ids IH]; intros i w c; cbv zeta.
  - simpl. repeat split; try lia.
    + exists []. by rewrite app_nil_r.
    + exists []. repeat split; simpl; try lia. constructor.
  - destruct (rate_limited (get_tweets i uid)) eqn:H429.
    + rewrite check_loop_stop by done. simpl. repeat split; try lia.
      * exists []. by rewrite app_nil_r.
      * exists [GetTweets uid]. repeat split; simpl; try lia.
        constructor; [|constructor]. exists uid. split; [left | done].
    + rewrite check_loop_step by done.
      specialize (IH (S i)
                    (probe_world now days_since uid (get_tweets i uid) w)
                    (c + if counted (get_tweets i uid) then 1 else 0)).
      cbv zeta in IH.
      destruct (probe_world_frame uid (get_tweets i uid) w)
        as (Hd & Hwl & Hul & [added1 Hac] & Hreq).
      destruct IH as (Hcount & Hd' & Hwl' & Hul' & [added2 Hac']
                      & sent & Hsent & Hall & Hlen & Hlen').
      set (res := check_loop _ _ _ _ _ _ _) in *.
      assert (0 <= (if counted (get_tweets i uid) then 1 else 0) <= 1)
        by (destruct (counted _); lia).
      cbn [length]. repeat split; try lia; try congruence.
      * exists (added1 ++ added2). by rewrite Hac', Hac, <- app_assoc.
      * exists (sent ++ [GetTweets uid]). repeat split.
        -- by rewrite Hsent, Hreq, <- app_assoc.
        -- apply Forall_app. split.
           ++ eapply Forall_impl; [exact Hall|]. intros x (u & Hu & ->).
              exists u. split; [by right | done].
           ++ constructor; [|constructor]. exists uid. split; [left | done].
        -- rewrite length_app. simpl. lia.
        -- rewrite length_app. simpl. lia.
Qed.

(** X15: a probe of n ids returns a count between 0 and n and sends at
    most n requests, each for one of the ids, and at least as many as it
    counts; it changes no score, whitelist flag, unfollowed_date or
    unfollow_reason, adds and removes no account, leaves whitelist and
    unfollow_log as they are and only appends to activity_checks. *)
Theorem check_account_activity_frame (user_ids : list string) (w : world) :
  let result :=
    check_account_activity now days_since get_tweets user_ids w in
  0 <= snd result <= Z.of_nat (length user_ids) /\
  map decision_state (following_status (conn (fst result)))
  = map decision_state (following_status (conn w)) /\
  whitelist (conn (fst result)) = whitelist (conn w) /\
  unfollow_log (conn (fst result)) = unfollow_log (conn w) /\
  (exists added,
     activity_checks (conn (fst result)) = activity_checks (conn w) ++ added)
  /\
  (exists sent,
     requests (fst result) = sent ++ requests w /\
     Forall (fun c => exists u, u ∈ user_ids /\ c = GetTweets u) sent /\
     snd result <= Z.of_nat (length sent) /\
     (length sent <= length user_ids)%nat).
Proof.
  intros result. unfold result, check_account_activity.
  destruct (check_loop_frame_all user_ids 0%nat w 0)
    as (? & ? & ? & ? & ? & sent & ? & ? & ? & ?).
  repeat split; try lia; try done.
  exists sent. repeat split; try done. lia.
Qed.

End ProberFrame.

(** X16: probing a user id that has no row in following_status changes no
    account, and still records the check: when the date of the tweet can be
    read, the call returns True and appends one row to activity_checks. *)
Theorem update_account_activity_unknown_id (now : string)
    (days_since : string -> option Z) (uid : string) (act : activity_data)
    (days : option Z) (w : world) :
  find_following uid (following_status (conn w)) = None ->
  activity_days days_since act = Some days ->
  let result := update_account_activity now days_since uid act w in
  snd result = true /\
  following_status (conn (fst result)) = following_status (conn w) /\
  activity_checks (conn (fst result))
  = activity_checks (conn w) ++ [new_activity_check now uid act days].
Proof.
  intros Hnone Hdays result. unfold result.
  rewrite update_account_activity_days, Hdays. simpl.
  repeat split. apply sql_update_none. by apply find_none_rowcount.
Qed.

Lemma update_account_activity_unknown_id_witness :
  following_status
    (conn (fst (update_account_activity example_now example_days_since "99"
                  (activity_not_found
                     {| status_code := 404; x_rate_limit_remaining := None;
                        data := [] |})
                  world_ranked)))
  = following_status (conn world_ranked).
Proof.
  apply (update_account_activity_unknown_id example_now example_days_since
           "99" _ None world_ranked); reflexivity.
Defined.

Lemma calculate_unfollow_scores_raises (w : world) :
  (exists r, r ∈ following_status (conn w) /\ unfollowed_date r = None /\
             scorable r = false) ->
  snd (calculate_unfollow_scores w) = Raise TypeError.
Proof.
  intros (r & Hr & Hd & Hs). unfold calculate_unfollow_scores.
  match goal with
  | |- context [score_loop ?accs ?w0 ?n] =>
      pose proof (score_loop_raises accs w0 n) as Hraise;
      destruct (score_loop accs w0 n) as [w1 [updated|e]] eqn:Eloop
  end; simpl in *.
  - exfalso. assert (Ok updated = Raise TypeError) as [=].
    apply Hraise. exists r. split; [|done].
    apply list_elem_of_In, filter_In. split; [by apply list_elem_of_In|].
    by rewrite Hd.
  - apply Hraise. exists r. split; [|done].
    apply list_elem_of_In, filter_In. split; [by apply list_elem_of_In|].
    by rewrite Hd.
Qed.

(** X17: a probe answered with 404, or with 200 and an empty timeline,
    stores NULL for days_inactive; if the account is followed and not
    whitelisted, the next recomputation of the scores raises TypeError. *)
Theorem unknown_activity_blocks_scoring (now : string)
    (days_since : string -> option Z)
    (get_tweets : nat -> string -> option tweets_response)
    (uid : string) (resp : tweets_response) (r : following_row) (w : world) :
  get_tweets 0%nat uid = Some resp ->
  status_code resp = 404 \/ (status_code resp = 200 /\ data resp = []) ->
  r ∈ following_status (conn w) ->
  user_id r = uid ->
  unfollowed_date r = None ->
  truthy (py_of_int (is_whitelisted r)) = false ->
  let probed :=
    fst (check_account_activity now days_since get_tweets [uid] w) in
  (forall r', r' ∈ following_status (conn probed) -> user_id r' = uid ->
              days_inactive r' = None) /\
  snd (calculate_unfollow_scores probed) = Raise TypeError.
Proof.
  intros Hget Hstatus Hr Hkey Hd Hwl probed.
  assert (Htable :
    following_status (conn probed)
    = sql_update (fun x => String.eqb (user_id x) uid)
        (set_activity None None None None now) (following_status (conn w))).
  { unfold probed, check_account_activity. cbn [check_loop]. rewrite Hget.
    destruct Hstatus as [H404|[H200 Hdata]].
    - rewrite H404. reflexivity.
    - rewrite H200. simpl Z.eqb. cbv iota.
      unfold activity_of_response. rewrite Hdata. reflexivity. }
  split.
  - intros r' Hr' Hkey'. rewrite Htable in Hr'.
    apply elem_of_sql_update in Hr' as (x & Hx & ->).
    destruct (String.eqb_spec (user_id x) uid) as [E|N]; [done|].
    congruence.
  - apply calculate_unfollow_scores_raises.
    exists (set_activity None None None None now r). split; [|split].
    + rewrite Htable. unfold sql_update.
      apply (list_elem_of_fmap_2'
               (fun x => if String.eqb (user_id x) uid
                         then set_activity None None None None now x else x)
               _ r); [done|].
      by rewrite Hkey, String.eqb_refl.
    + done.
    + unfold scorable. simpl. by rewrite Hwl.
Qed.

Lemma unknown_activity_blocks_scoring_witness :
  snd (calculate_unfollow_scores
         (fst (check_account_activity example_now example_days_since
                 get_tweets_not_found ["1"] world_probed)))
  = Raise TypeError.
Proof.
  apply (unknown_activity_blocks_scoring example_now example_days_since
           get_tweets_not_found "1"
           {| status_code := 404; x_rate_limit_remaining := None; data := [] |}
           (probed_row "1" 800 20 5) world_probed).
  - reflexivity.
  - by left.
  - apply list_elem_of_here.
  - reflexivity.
  - reflexivity.
  - reflexivity.
Defined.

(** ** Activity analysis: which accounts are probed *)

Lemma unchecked_ids_spec (week_ago : string) (w : world) (u : string) :
  u ∈ unchecked_ids week_ago w ->
  exists r, r ∈ following_status (conn w) /\ user_id r = u /\
            is_unchecked week_ago r = true.
Proof.
  unfold unchecked_ids. intros Hu.
  apply (list_elem_of_fmap user_id) in Hu as (r & -> & Hr).
  rewrite merge_sort_Permutation in Hr.
  apply list_elem_of_In, filter_In in Hr as [Hr Hc].
  exists r. split; [by apply list_elem_of_In | done].
Qed.

Lemma is_unchecked_spec (week_ago : string) (r : following_row) :
  is_unchecked week_ago r = true <->
  unfollowed_date r = None /\
  (last_checked_date r = None \/
   exists date, last_checked_date r = Some date /\
                String.ltb date week_ago = true).
Proof.
  unfold is_unchecked, sql_is_null, sql_text_lt.
  rewrite andb_true_iff, orb_true_iff.
  destruct (unfollowed_date r), (last_checked_date r) as [date|]; split;
    try (intros [? ?]; discriminate).
  - intros [_ [H|H]]; [discriminate|]. split; [done|]. right. eauto.
  - intros [_ [H|(d & [= <-] & H)]]; [discriminate|]. auto.
  - intros _. split; [done | by left].
  - auto.
Qed.

(** X18: the activity analysis sends requests only for user ids of accounts
    that are not unfollowed and whose last check is missing or older than
    the week limit; it counts at most one per request, and when no account
    is due it returns 0 and leaves the state as it was. *)
Theorem run_activity_analysis_probes_due_accounts (now : string)
    (days_since : string -> option Z)
    (get_tweets : nat -> string -> option tweets_response)
    (week_ago : string) (w : world) :
  let result := run_activity_analysis now days_since get_tweets week_ago w in
  (exists sent,
     requests (fst result) = sent ++ requests w /\
     snd result <= Z.of_nat (length sent) /\
     Forall (fun c =>
               exists r, c = GetTweets (user_id r) /\
                         r ∈ following_status (conn w) /\
                         unfollowed_date r = None /\
                         (last_checked_date r = None \/
                          exists date, last_checked_date r = Some date /\
                                       String.ltb date week_ago = true))
            sent) /\
  (List.filter (is_unchecked week_ago) (following_status (conn w)) = [] ->
   result = (w, 0)).
Proof.
  intros result. unfold result, run_activity_analysis. split.
  - destruct (unchecked_ids week_ago w) as [|u ids] eqn:Eids.
    + exists []. repeat split; simpl; [lia | constructor].
    + rewrite <- Eids.
      destruct (check_loop_frame_all now days_since get_tweets
                  (unchecked_ids week_ago w) 0%nat w 0)
        as (_ & _ & _ & _ & _ & sent & Hsent & Hall & Hcount & _).
      exists sent. unfold check_account_activity.
      repeat split; [done | lia |].
      eapply Forall_impl; [exact Hall|]. intros c (x & Hx & ->).
      apply unchecked_ids_spec in Hx as (r & Hr & <- & Hc).
      apply is_unchecked_spec in Hc as [Hd Hlast]. eauto.
  - intros Hnone. unfold unchecked_ids. by rewrite Hnone.
Qed.

Lemma run_activity_analysis_probes_due_accounts_witness :
  run_activity_analysis example_now example_days_since
    get_tweets_limit_at_fifth example_week_ago world_probed
  = (world_probed, 0).
Proof.
  apply (run_activity_analysis_probes_due_accounts example_now
           example_days_since get_tweets_limit_at_fifth example_week_ago
           world_probed).
  reflexivity.
Defined.

(** Of the three accounts of [world_stale] only the first is due: the
    second was checked a day ago and the third is unfollowed. *)
Example analysis_of_world_stale :
  unchecked_ids example_week_ago world_stale = ["1"] /\
  requests (fst (run_activity_analysis example_now example_days_since
                   get_tweets_not_found example_week_ago world_stale))
  = [GetTweets "1"].
Proof. split; vm_compute; reflexivity. Qed.



(** ** Statistics *)

Lemma sql_count_cons {A : Type} (p : A -> bool) (x : A) (t : list A) :
  sql_count p (x :: t) = (if p x then 1 else 0) + sql_count p t.
Proof.
  unfold sql_count. simpl. destruct (p x); simpl; lia.
Qed.

Lemma activity_brackets (followed : list following_row) :
  sql_count (fun _ => true) followed
  + sql_count (fun r => sql_eq (days_inactive r) 180) followed
  = sql_count (fun r => sql_gt (days_inactive r) 365) followed
    + sql_count (fun r => sql_between (days_inactive r) 180 365) followed
    + sql_count (fun r => sql_between (days_inactive r) 90 180) followed
    + sql_count (fun r => sql_lt (days_inactive r) 90) followed
    + sql_count (fun r => sql_is_null (days_inactive r)) followed.
Proof.
  induction followed as [|r followed IH]; [done|].
  rewrite !sql_count_cons.
  unfold sql_eq, sql_gt, sql_between, sql_lt, sql_is_null in *.
  destruct (days_inactive r) as [d|]; [|lia].
  destruct (Z.eqb_spec d 180), (Z.ltb_spec 365 d), (Z.leb_spec 180 d),
    (Z.leb_spec d 365), (Z.leb_spec 90 d), (Z.leb_spec d 180),
    (Z.ltb_spec d 90); simpl; lia.
Qed.

(** X20: in the statistics the five activity counts add up to the number
    of followed accounts plus the number of followed accounts inactive for
    exactly 180 days: the brackets 90-180 and 180-365 both contain 180, and
    every other value of days_inactive, NULL included, falls in exactly one
    bracket. *)
Theorem statistics_activity_brackets (day_ago : string) (w : world) :
  let stats := get_statistics day_ago w in
  dead_1year stats + inactive_6months stats + inactive_3months stats
  + active stats + unchecked stats
  = total_following stats
    + sql_count (fun r => sql_is_null (unfollowed_date r) &&
                          sql_eq (days_inactive r) 180)
        (following_status (conn w)).
Proof.
  simpl. rewrite <- activity_brackets. f_equal.
  unfold sql_count. f_equal.
  induction (following_status (conn w)) as [|r t IH]; [done|]. simpl.
  destruct (sql_is_null (unfollowed_date r)); simpl; [|exact IH].
  destruct (sql_eq (days_inactive r) 180); simpl; by rewrite IH.
Qed.

Lemma filter_length_le {A : Type} (p q : A -> bool) (t : list A) :
  (forall x, p x = true -> q x = true) ->
  (length (List.filter p t) <= length (List.filter q t))%nat.
Proof.
  intros Hpq. induction t as [|x t IH]; simpl; [done|].
  destruct (p x) eqn:Ep.
  - rewrite (Hpq x Ep). simpl. lia.
  - destruct (q x); simpl; lia.
Qed.

Lemma filter_filter_length {A : Type} (p q : A -> bool) (t : list A) :
  length (List.filter q (List.filter p t))
  = length (List.filter (fun x => p x && q x) t).
Proof.
  induction t as [|x t IH]; simpl; [done|].
  destruct (p x); simpl; [|done]. destruct (q x); simpl; by rewrite IH.
Qed.

(** X21: with a threshold of at least 50 the candidate query never returns
    more accounts than the statistics count as unfollow candidates. *)
Theorem statistics_bound_candidates (day_ago : string) (limit min_score : Z)
    (w : world) :
  50 <= min_score ->
  Z.of_nat (length (get_unfollow_candidates limit min_score w))
  <= unfollow_candidates (get_statistics day_ago w).
Proof.
  intros Hmin. simpl. unfold sql_count.
  destruct (candidates_split limit min_score w) as [rest Hsplit].
  apply (f_equal length) in Hsplit. rewrite length_app in Hsplit.
  rewrite (Permutation_length (merge_sort_Permutation _ _)) in Hsplit.
  rewrite filter_filter_length.
  pose proof (filter_length_le (is_candidate min_score)
                (fun x => sql_is_null (unfollowed_date x) &&
                          sql_ge (unfollow_score x) 50)
                (following_status (conn w))) as Hle.
  assert (length (List.filter (is_candidate min_score)
                    (following_status (conn w)))
          <= length (List.filter
                       (fun x => sql_is_null (unfollowed_date x) &&
                                 sql_ge (unfollow_score x) 50)
                       (following_status (conn w))))%nat; [|lia].
  apply Hle. intros x Hx.
  apply is_candidate_spec in Hx as (-> & _ & s & -> & Hs). simpl.
  apply Z.leb_le. lia.
Qed.

Lemma statistics_bound_candidates_witness :
  Z.of_nat (length (get_unfollow_candidates 2 50 world_ranked))
  <= unfollow_candidates (get_statistics "2024-12-31 00:00:00" world_ranked).
Proof.
  apply (statistics_bound_candidates "2024-12-31 00:00:00" 2 50 world_ranked).
  lia.
Defined.

(** ** Whitelist guard: automatic whitelisting *)

Lemma ids_insert_or_replace (r : whitelist_row) (t : list whitelist_row)
    (k : string) :
  k = wl_user_id r \/ (exists e, e ∈ t /\ wl_user_id e = k) ->
  exists e, e ∈ sql_insert_or_replace wl_user_id r t /\ wl_user_id e = k.
Proof.
  unfold sql_insert_or_replace.
  destruct (String.eqb_spec k (wl_user_id r)) as [->|Hne].
  - intros _. exists r. split; [|done]. apply elem_of_app. right.
    apply list_elem_of_here.
  - intros [?|(e & He & Hk)]; [done|]. exists e. split; [|done].
    apply elem_of_app. left. apply elem_of_sql_delete. split; [done|].
    destruct (String.eqb_spec (wl_user_id e) (wl_user_id r)); congruence.
Qed.

Lemma whitelist_each_spec (now : string) (reason_of : following_row -> string)
    (accounts : list following_row) :
  forall w added_count,
    let result := whitelist_each now reason_of accounts w added_count in
    snd result = added_count + Z.of_nat (length accounts) /\
    following_status (conn (fst result))
    = map (fun r =>
             if existsb (fun a => String.eqb (user_id r) (user_id a)) accounts
             then set_whitelisted r else r)
        (following_status (conn w)) /\
    (forall k,
       (exists a, a ∈ accounts /\ user_id a = k) \/
       (exists e, e ∈ whitelist (conn w) /\ wl_user_id e = k) ->
       exists e, e ∈ whitelist (conn (fst result)) /\ wl_user_id e = k) /\
    unfollow_log (conn (fst result)) = unfollow_log (conn w) /\
    activity_checks (conn (fst result)) = activity_checks (conn w).
Proof.
  induction accounts as [|a accounts IH]; intros w n; cbv zeta.
  - simpl. rewrite map_id, Z.add_0_r. repeat split.
    intros k [(a & Ha & _)|H]; [by apply elem_of_nil in Ha | done].
  - cbn [whitelist_each add_to_whitelist].
    match goal with
    | |- context [whitelist_each _ _ _ ?w1 ?n1] =>
        specialize (IH w1 n1); cbv zeta in IH;
        set (res := whitelist_each now reason_of accounts w1 n1) in *
    end.
    destruct IH as (Hcount & Htable & Hids & Hul & Hac).
    cbn [conn commit with_following with_whitelist following_status
         whitelist unfollow_log activity_checks] in Htable, Hids, Hul, Hac.
    split; [|split; [|split; [|split]]]; try done.
    + rewrite Hcount. cbn [length]. lia.
    + rewrite Htable. unfold sql_update. rewrite map_map. apply map_ext.
      intros r. cbn [existsb].
      destruct (String.eqb (user_id r) (user_id a)); simpl; [|done].
      by destruct (existsb _ accounts).
    + intros k Hk. apply Hids.
      destruct Hk as [(x & Hx & Hkx)|He].
      * apply elem_of_cons in Hx as [->|Hx]; [|left; eauto].
        right. apply ids_insert_or_replace. by left.
      * right. apply ids_insert_or_replace. by right.
Qed.

Lemma filter_none {A : Type} (p : A -> bool) (t : list A) :
  Forall (fun x => p x = false) t -> List.filter p t = [].
Proof.
  induction t as [|x t IH]; intros H; simpl; [done|].
  apply Forall_cons in H as [Hx H]. rewrite Hx. by apply IH.
Qed.

Lemma whitelist_each_filter (now : string)
    (reason_of : following_row -> string) (p : following_row -> bool)
    (w : world) :
  (forall r, p r = true -> is_whitelisted r = Some 0) ->
  (forall r, p (set_whitelisted r) = false) ->
  let result :=
    whitelist_each now reason_of (List.filter p (following_status (conn w)))
      w 0 in
  snd result = sql_count p (following_status (conn w)) /\
  (forall r, r ∈ following_status (conn w) -> p r = true ->
     exists e, e ∈ whitelist (conn (fst result)) /\ wl_user_id e = user_id r) /\
  Forall (fun r => p r = false) (following_status (conn (fst result))) /\
  List.filter p (following_status (conn (fst result))) = [].
Proof.
  intros Hp Hset result.
  destruct (whitelist_each_spec now reason_of
              (List.filter p (following_status (conn w))) w 0)
    as (Hcount & Htable & Hids & _ & _).
  fold result in Hcount, Htable, Hids.
  assert (Hnone : Forall (fun r => p r = false)
                    (following_status (conn (fst result)))).
  { rewrite Htable. apply Forall_fmap, Forall_forall. intros r Hr. simpl.
    destruct (existsb _ _) eqn:Ex; [apply Hset|].
    destruct (p r) eqn:Epr; [|done]. exfalso.
    assert (existsb (fun a => String.eqb (user_id r) (user_id a))
              (List.filter p (following_status (conn w))) = true);
      [|congruence].
    apply existsb_exists. exists r. split; [|apply String.eqb_refl].
    apply filter_In. split; [by apply list_elem_of_In | done]. }
  split; [|split; [|split]]; [by rewrite Hcount | | done |].
  - intros r Hr Hpr. apply Hids. left. exists r. split; [|done].
    apply list_elem_of_In, filter_In. split; [by apply list_elem_of_In | done].
  - by apply filter_none.
Qed.

(** X22: [auto_whitelist_verified] returns the number of followed, not yet
    whitelisted accounts with verified = 1 and gives each of them a
    whitelist entry; afterwards no verified account is returned by the
    candidate query, and a second call adds nothing and returns 0. *)
Theorem auto_whitelist_verified_protects (now : string) (w : world) :
  let result := auto_whitelist_verified now w in
  snd result = sql_count is_verified_unprotected (following_status (conn w)) /\
  (forall r, r ∈ following_status (conn w) ->
     is_verified_unprotected r = true ->
     exists e, e ∈ whitelist (conn (fst result)) /\ wl_user_id e = user_id r) /\
  (forall limit min_score,
     Forall (fun r => verified r <> Some 1)
       (get_unfollow_candidates limit min_score (fst result))) /\
  auto_whitelist_verified now (fst result) = (fst result, 0).
Proof.
  intros result.
  destruct (whitelist_each_filter now (fun _ => "Auto-added: Verified account")
              is_verified_unprotected w) as (Hcount & Hids & Hnone & Hnil).
  { unfold is_verified_unprotected, sql_eq. intros r Hr.
    apply andb_true_iff in Hr as [Hr _]. apply andb_true_iff in Hr as [_ Hr].
    destruct (is_whitelisted r) as [z|]; [|done].
    apply Z.eqb_eq in Hr. by subst. }
  { intros r. unfold is_verified_unprotected. simpl.
    by rewrite andb_false_r. }
  fold (auto_whitelist_verified now w) in Hcount, Hids, Hnone, Hnil.
  fold result in Hcount, Hids, Hnone, Hnil.
  split; [done|]. split; [done|]. split.
  - intros limit min_score. apply Forall_forall. intros r Hr Hv.
    apply candidates_qualify in Hr as [Hin Hc].
    apply is_candidate_spec in Hc as (Hd & Hwl & _).
    rewrite Forall_forall in Hnone. specialize (Hnone r Hin).
    unfold is_verified_unprotected in Hnone.
    by rewrite Hv, Hwl, Hd in Hnone.
  - unfold auto_whitelist_verified at 1. by rewrite Hnil.
Qed.

(** X23: [auto_whitelist_high_followers] returns the number of followed,
    not yet whitelisted accounts with at least min_followers followers and
    gives each of them a whitelist entry; afterwards no account with that
    many followers is returned by the candidate query, and a second call
    with the same threshold adds nothing and returns 0. *)
Theorem auto_whitelist_high_followers_protects (now : string)
    (min_followers : Z) (w : world) :
  let result := auto_whitelist_high_followers now min_followers w in
  snd result
  = sql_count (is_influencer_unprotected min_followers)
      (following_status (conn w)) /\
  (forall r, r ∈ following_status (conn w) ->
     is_influencer_unprotected min_followers r = true ->
     exists e, e ∈ whitelist (conn (fst result)) /\ wl_user_id e = user_id r) /\
  (forall limit min_score,
     Forall (fun r => forall n, follower_count r = Some n -> n < min_followers)
       (get_unfollow_candidates limit min_score (fst result))) /\
  auto_whitelist_high_followers now min_followers (fst result)
  = (fst result, 0).
Proof.
  intros result.
  destruct (whitelist_each_filter now high_follower_reason
              (is_influencer_unprotected min_followers) w)
    as (Hcount & Hids & Hnone & Hnil).
  { unfold is_influencer_unprotected, sql_eq. intros r Hr.
    apply andb_true_iff in Hr as [Hr _]. apply andb_true_iff in Hr as [_ Hr].
    destruct (is_whitelisted r) as [z|]; [|done].
    apply Z.eqb_eq in Hr. by subst. }
  { intros r. unfold is_influencer_unprotected. simpl.
    by rewrite andb_false_r. }
  fold (auto_whitelist_high_followers now min_followers w)
    in Hcount, Hids, Hnone, Hnil.
  fold result in Hcount, Hids, Hnone, Hnil.
  split; [done|]. split; [done|]. split.
  - intros limit min_score. apply Forall_forall. intros r Hr n Hn.
    apply candidates_qualify in Hr as [Hin Hc].
    apply is_candidate_spec in Hc as (Hd & Hwl & _).
    rewrite Forall_forall in Hnone. specialize (Hnone r Hin).
    unfold is_influencer_unprotected in Hnone.
    rewrite Hn, Hwl, Hd in Hnone. simpl in Hnone.
    rewrite !andb_true_r in Hnone. apply Z.leb_gt in Hnone. lia.
  - unfold auto_whitelist_high_followers at 1. by rewrite Hnil.
Qed.

(** The verified followed account is whitelisted with the reason of the
    function, the unfollowed one is not. *)
Example auto_whitelist_of_world_verified :
  snd (auto_whitelist_verified example_now world_verified) = 1 /\
  map (fun e => (wl_user_id e, wl_reason e))
    (whitelist (conn (fst (auto_whitelist_verified example_now world_verified))))
  = [("1", Some "Auto-added: Verified account")] /\
  map wl_reason
    (whitelist
       (conn (fst (auto_whitelist_high_followers example_now 100000
                     world_verified))))
  = [Some "Auto-added: High influence (1,000,000 followers)"].
Proof. repeat split; vm_compute; reflexivity. Qed.

(** ** Fetching the following list *)

Lemma insert_establishes_fresh (now : string) (a : account_data)
    (t : list following_row) :
  has_fresh_account now
    (sql_insert_or_replace user_id (new_following_row now a) t).
Proof.
  exists (ad_id a). split.
  - exists (new_following_row now a). split; [|done].
    unfold sql_insert_or_replace. apply elem_of_app. right.
    apply list_elem_of_here.
  - intros r Hr Hkey. unfold sql_insert_or_replace in Hr.
    apply elem_of_app in Hr as [Hr|Hr].
    + apply elem_of_sql_delete in Hr as [_ Hr]. simpl in Hr.
      destruct (String.eqb_spec (user_id r) (ad_id a)); congruence.
    + apply list_elem_of_singleton in Hr as ->. by repeat split.
Qed.

Lemma add_users_spec (now : string) (users : list account_data) :
  forall w following_count,
    let result := add_users now users w following_count in
    snd result = following_count + Z.of_nat (length users) /\
    (users = [] -> fst result = w) /\
    (users <> [] ->
     has_fresh_account now (following_status (conn (fst result)))) /\
    whitelist (conn (fst result)) = whitelist (conn w) /\
    unfollow_log (conn (fst result)) = unfollow_log (conn w) /\
    activity_checks (conn (fst result)) = activity_checks (conn w) /\
    requests (fst result) = requests w /\
    (NoDup (map user_id (following_status (conn w))) ->
     NoDup (map user_id (following_status (conn (fst result))))).
Proof.
  induction users as [|user users IH]; intros w n; cbv zeta.
  - simpl. rewrite Z.add_0_r. by repeat split.
  - cbn [add_users add_following_account].
    match goal with
    | |- context [add_users _ _ ?w1 ?n1] =>
        specialize (IH w1 n1); cbv zeta in IH;
        set (res := add_users now users w1 n1) in *
    end.
    destruct IH as (Hcount & Hnil & Hfresh & Hwl & Hul & Hac & Hreq & Hnd).
    cbn [conn commit with_following following_status whitelist unfollow_log
         activity_checks requests] in Hfresh, Hwl, Hul, Hac, Hreq, Hnd.
    split; [|split; [|split; [|split; [|split; [|split; [|split]]]]]];
      try done.
    + rewrite Hcount. cbn [length]. lia.
    + intros _. destruct users as [|u users'].
      * rewrite Hnil by done. apply insert_establishes_fresh.
      * by apply Hfresh.
    + intros Hunique. apply Hnd. by apply keys_insert_or_replace.
Qed.

Lemma fetch_loop_spec now get_following fuel :
  forall n token w following_count w' count',
    fetch_loop now get_following fuel n token w following_count
    = Some (w', count') ->
    ((count' = following_count /\ w' = w) \/
     (following_count < count' /\
      has_fresh_account now (following_status (conn w')))) /\
    whitelist (conn w') = whitelist (conn w) /\
    unfollow_log (conn w') = unfollow_log (conn w) /\
    activity_checks (conn w') = activity_checks (conn w) /\
    requests w' = requests w /\
    (NoDup (map user_id (following_status (conn w))) ->
     NoDup (map user_id (following_status (conn w')))).
Proof.
  induction fuel as [|fuel IH]; intros n token w c w' c' Hrun;
    [discriminate|].
  cbn [fetch_loop] in Hrun.
  destruct (get_following n token) as [response|].
  2:{ injection Hrun as <- <-. repeat split; auto. }
  destruct (fr_status_code response =? 200).
  - pose proof (add_users_spec now (fr_data response) w c) as Hadd.
    cbv zeta in Hadd.
    destruct (add_users now (fr_data response) w c) as [w1 c1].
    simpl in Hadd.
    destruct Hadd as (Hc1 & Hnil & Hfresh & Hwl & Hul & Hac & Hreq & Hnd).
    assert (Hstep : (c1 = c /\ w1 = w) \/
                    (c < c1 /\
                     has_fresh_account now (following_status (conn w1)))).
    { destruct (fr_data response) as [|u us]; [left | right].
      - split; [simpl in Hc1; lia | by apply Hnil].
      - split; [simpl in Hc1; lia | by apply Hfresh]. }
    destruct (fr_next_token response) as [next_token|].
    + apply IH in Hrun
        as (Hrest & Hwl' & Hul' & Hac' & Hreq' & Hnd').
      split; [|repeat split; try congruence; auto].
      destruct Hrest as [[-> ->]|[Hlt Hf]]; [exact Hstep|].
      right. split; [|done]. destruct Hstep as [[-> _]|[? _]]; lia.
    + injection Hrun as <- <-. repeat split; auto.
  - destruct (fr_status_code response =? 429).
    + by apply IH in Hrun.
    + injection Hrun as <- <-. repeat split; auto.
Qed.

(** X24: when the fetch of the following list returns, its count is not
    negative; with a count of 0 the state is the one it started from; with a
    positive count the table holds an account all of whose rows are as the
    upsert leaves them - followed, not whitelisted, days_inactive NULL;
    whitelist, unfollow_log and activity_checks are untouched, and unique
    user ids stay unique. *)
Theorem fetch_following_list_result (now : string)
    (get_following : nat -> option string -> option following_response)
    (fuel : nat) (w w' : world) (following_count : Z) :
  fetch_following_list now get_following fuel w = Some (w', following_count) ->
  0 <= following_count /\
  (following_count = 0 -> w' = w) /\
  (0 < following_count ->
   has_fresh_account now (following_status (conn w'))) /\
  whitelist (conn w') = whitelist (conn w) /\
  unfollow_log (conn w') = unfollow_log (conn w) /\
  activity_checks (conn w') = activity_checks (conn w) /\
  (NoDup (map user_id (following_status (conn w))) ->
   NoDup (map user_id (following_status (conn w')))).
Proof.
  intros Hrun. apply fetch_loop_spec in Hrun
    as (Hcount & Hwl & Hul & Hac & _ & Hnd).
  repeat split; try done.
  - destruct Hcount as [[-> _]|[? _]]; lia.
  - intros ->. destruct Hcount as [[_ ->]|[? _]]; [done | lia].
  - intros Hpos. destruct Hcount as [[-> _]|[_ ?]]; [lia | done].
Qed.

Lemma fetch_following_list_result_witness :
  has_fresh_account example_now
    (following_status
       (conn (fst (add_following_account example_now bob world_scored)))).
Proof.
  apply (fetch_following_list_result example_now get_following_bob 1
           world_scored
           (fst (add_following_account example_now bob world_scored)) 1).
  - reflexivity.
  - lia.
Defined.

(** ** The full cycle *)

Lemma filter_key_sql_update_other (f : following_row -> following_row)
    (uid k : string) (t : list following_row) :
  (forall r, user_id (f r) = user_id r) -> uid <> k ->
  List.filter (fun r => String.eqb (user_id r) k)
    (sql_update (fun r => String.eqb (user_id r) uid) f t)
  = List.filter (fun r => String.eqb (user_id r) k) t.
Proof.
  intros Hf Hne. unfold sql_update. induction t as [|x t IH]; [done|].
  simpl. destruct (String.eqb_spec (user_id x) uid) as [E|N].
  - rewrite Hf.
    destruct (String.eqb_spec (user_id x) k); [congruence | exact IH].
  - destruct (String.eqb (user_id x) k); [by rewrite IH | exact IH].
Qed.

Lemma check_loop_keeps_key now days_since get_tweets (k : string) user_ids :
  forall i w checked_count,
    k ∉ user_ids ->
    List.filter (fun r => String.eqb (user_id r) k)
      (following_status
         (conn (fst (check_loop now days_since get_tweets i user_ids w
                       checked_count))))
    = List.filter (fun r => String.eqb (user_id r) k)
        (following_status (conn w)).
Proof.
  induction user_ids as [|uid user_ids IH]; intros i w c Hk; [done|].
  apply not_elem_of_cons in Hk as [Hne Hk].
  destruct (rate_limited (get_tweets i uid)) eqn:H429.
  - by rewrite check_loop_stop.
  - rewrite check_loop_step, IH by done. unfold probe_world.
    destruct (probe_write days_since (get_tweets i uid)) as [[act days]|];
      [|done].
    simpl. by apply filter_key_sql_update_other.
Qed.

Lemma fresh_not_unchecked (now week_ago : string) (r : following_row) :
  String.ltb now week_ago = false ->
  freshly_fetched now r -> is_unchecked week_ago r = false.
Proof.
  intros Hclock (Hd & _ & _ & Hlast).
  destruct (is_unchecked week_ago r) eqn:E; [|done].
  apply is_unchecked_spec in E as [_ [E|(date & E & Hlt)]]; congruence.
Qed.

Lemma run_activity_analysis_keeps_fresh now days_since get_tweets week_ago w :
  String.ltb now week_ago = false ->
  has_fresh_account now (following_status (conn w)) ->
  has_fresh_account now
    (following_status
       (conn (fst (run_activity_analysis now days_since get_tweets
                     week_ago w)))).
Proof.
  intros Hclock (k & (r & Hr & Hkey) & Hall).
  assert (Hk : k ∉ unchecked_ids week_ago w).
  { intros Hin. apply unchecked_ids_spec in Hin as (x & Hx & Hxk & Hc).
    rewrite (fresh_not_unchecked now week_ago x Hclock) in Hc; [done|].
    by apply Hall. }
  exists k. unfold run_activity_analysis.
  destruct (unchecked_ids week_ago w) as [|u ids] eqn:Eids; [by eauto|].
  unfold check_account_activity.
  pose proof (check_loop_keeps_key now days_since get_tweets k (u :: ids)
                0%nat w 0 Hk) as Hsame.
  assert (Hiff : forall x,
            x ∈ following_status
                  (conn (fst (check_loop now days_since get_tweets 0
                                (u :: ids) w 0))) /\ user_id x = k
            <-> x ∈ following_status (conn w) /\ user_id x = k).
  { intros x.
    assert (Hin : In x (List.filter (fun r => String.eqb (user_id r) k)
                          (following_status
                             (conn (fst (check_loop now days_since get_tweets
                                           0 (u :: ids) w 0)))))
                  <-> In x (List.filter (fun r => String.eqb (user_id r) k)
                              (following_status (conn w))))
      by (by rewrite Hsame).
    rewrite !filter_In, !String.eqb_eq in Hin.
    by rewrite !list_elem_of_In. }
  split.
  - exists r. by apply Hiff.
  - intros x Hx Hxk. apply Hall; [|done]. by apply (Hiff x).
Qed.

Lemma fresh_account_blocks_scoring (now : string) (w : world) :
  has_fresh_account now (following_status (conn w)) ->
  snd (calculate_unfollow_scores w) = Raise TypeError.
Proof.
  intros (k & (r & Hr & Hkey) & Hall).
  apply calculate_unfollow_scores_raises. exists r.
  destruct (Hall r Hr Hkey) as (Hd & Hwl & Hdays & _).
  split; [done|]. split; [done|]. unfold scorable. by rewrite Hwl, Hdays.
Qed.

(** X25: a full cycle whose fetch of the following list stores at least one
    account never reaches the unfollow step: the accounts just stored are
    not due for a probe, their days_inactive is NULL, and the computation of
    the scores raises TypeError, which the cycle passes on. *)
Theorem full_cycle_raises_after_fetch (env : cycle_env) (fuel : nat)
    (w w1 : world) (following_count : Z) :
  fetch_following_list (env_now env) (env_get_following env) fuel w
  = Some (w1, following_count) ->
  0 < following_count ->
  String.ltb (env_now env) (env_week_ago env) = false ->
  exists w3, run_full_cleaning_cycle env fuel w = Some (w3, Raise TypeError).
Proof.
  intros Hfetch Hpos Hclock. unfold run_full_cleaning_cycle. rewrite Hfetch.
  apply fetch_loop_spec in Hfetch as (Hcount & _).
  assert (Hfresh : has_fresh_account (env_now env)
                     (following_status (conn w1))).
  { destruct Hcount as [[-> _]|[_ ?]]; [lia | done]. }
  pose proof (run_activity_analysis_keeps_fresh (env_now env)
                (env_days_since env) (env_get_tweets env) (env_week_ago env)
                w1 Hclock Hfresh) as Hfresh2.
  destruct (run_activity_analysis _ _ _ _ w1) as [w2 checked_count].
  simpl in Hfresh2.
  pose proof (fresh_account_blocks_scoring _ _ Hfresh2) as Hraise.
  destruct (calculate_unfollow_scores w2) as [w3 [scored|e]];
    simpl in Hraise; [discriminate|].
  injection Hraise as ->. by exists w3.
Qed.

Lemma full_cycle_raises_after_fetch_witness :
  exists w3,
    run_full_cleaning_cycle example_env 1 world_probed
    = Some (w3, Raise TypeError).
Proof.
  apply (full_cycle_raises_after_fetch example_env 1 world_probed
           (fst (add_following_account example_now bob world_probed)) 1).
  - reflexivity.
  - lia.
  - reflexivity.
Defined.

Lemma score_loop_frame (accounts : list following_row) :
  forall w updated,
    unfollow_log (conn (fst (score_loop accounts w updated)))
    = unfollow_log (conn w) /\
    requests (fst (score_loop accounts w updated)) = requests w.
Proof.
  induction accounts as [|a accounts IH]; intros w n; [done|].
  cbn [score_loop].
  destruct (_calculate_unfollow_score (score_dict a)); [|done].
  match goal with
  | |- context [score_loop accounts ?w1 ?n1] =>
      destruct (IH w1 n1) as [-> ->]
  end. done.
Qed.

Lemma calculate_unfollow_scores_frame (w : world) :
  unfollow_log (conn (fst (calculate_unfollow_scores w)))
  = unfollow_log (conn w) /\
  requests (fst (calculate_unfollow_scores w)) = requests w.
Proof.
  unfold calculate_unfollow_scores.
  match goal with
  | |- context [score_loop ?accs w 0] =>
      pose proof (score_loop_frame accs w 0) as [Hlog Hreq];
      destruct (score_loop accs w 0) as [w1 [updated|e]]
  end; simpl in *; by split.
Qed.

Lemma run_activity_analysis_frame now days_since get_tweets week_ago w :
  unfollow_log
    (conn (fst (run_activity_analysis now days_since get_tweets week_ago w)))
  = unfollow_log (conn w) /\
  exists sent,
    requests (fst (run_activity_analysis now days_since get_tweets week_ago w))
    = sent ++ requests w /\
    Forall (fun c => exists u, c = GetTweets u) sent.
Proof.
  unfold run_activity_analysis.
  destruct (unchecked_ids week_ago w) as [|u ids].
  - split; [done|]. exists []. split; [done | constructor].
  - destruct (check_loop_frame_all now days_since get_tweets (u :: ids)
                0%nat w 0)
      as (_ & _ & _ & Hlog & _ & sent & Hsent & Hall & _).
    split; [exact Hlog|]. exists sent. split; [exact Hsent|].
    eapply Forall_impl; [exact Hall|]. intros c (x & _ & ->). eauto.
Qed.

(** X26: a cycle that runs in dry-run mode, or whose prompt is not answered
    with y or Y, unfollows nobody, however it ends: it adds no row to
    unfollow_log and every request it sends is a request for tweets. *)
Theorem cycle_without_consent_unfollows_nobody (env : cycle_env)
    (fuel : nat) (w w' : world) (outcome : pyresult cycle_outcome) :
  env_dry_run env = true \/ confirmed (env_answer env) = false ->
  run_full_cleaning_cycle env fuel w = Some (w', outcome) ->
  unfollow_log (conn w') = unfollow_log (conn w) /\
  exists sent,
    requests w' = sent ++ requests w /\
    Forall (fun c => exists u, c = GetTweets u) sent.
Proof.
  intros Hmode Hrun. unfold run_full_cleaning_cycle in Hrun.
  destruct (fetch_following_list _ _ fuel w) as [[w1 following_count]|] eqn:Ef;
    [|discriminate].
  apply fetch_loop_spec in Ef as (_ & _ & Hlog1 & _ & Hreq1 & _).
  destruct (run_activity_analysis_frame (env_now env) (env_days_since env)
              (env_get_tweets env) (env_week_ago env) w1)
    as (Hlog2 & sent & Hreq2 & Hsent).
  destruct (run_activity_analysis _ _ _ _ w1) as [w2 checked_count].
  simpl in Hlog2, Hreq2.
  destruct (calculate_unfollow_scores_frame w2) as (Hlog3 & Hreq3).
  destruct (calculate_unfollow_scores w2) as [w3 [scored_count|e]];
    simpl in Hlog3, Hreq3.
  2:{ injection Hrun as <- <-. split; [congruence|].
      exists sent. split; [congruence | done]. }
  destruct (get_unfollow_plan _ _ w3) as [[|c candidates]|e].
  - injection Hrun as <- <-. split; [congruence|].
    exists sent. split; [congruence | done].
  - destruct (env_dry_run env) eqn:Edry.
    + simpl in Hrun. rewrite unfollow_loop_dry_run in Hrun.
      injection Hrun as <- <-. split; [congruence|].
      exists sent. split; [congruence | done].
    + destruct Hmode as [?|Hanswer]; [discriminate|].
      rewrite Hanswer in Hrun. simpl in Hrun.
      injection Hrun as <- <-. split; [congruence|].
      exists sent. split; [congruence | done].
  - injection Hrun as <- <-. split; [congruence|].
    exists sent. split; [congruence | done].
Qed.

Lemma cycle_without_consent_unfollows_nobody_witness :
  unfollow_log
    (conn (fst (default (world_probed, Ok Cancelled)
                  (run_full_cleaning_cycle example_dry_env 1 world_probed))))
  = unfollow_log (conn world_probed).
Proof.
  apply (cycle_without_consent_unfollows_nobody example_dry_env 1 world_probed
           _ (Ok (Completed 0 0 3 1 0))).
  - by left.
  - vm_compute. reflexivity.
Defined.

(** A dry run over a store of probed accounts, the fetch failing: nothing
    is due, three accounts are scored, and the one candidate is reported as
    a simulated success. *)
Example dry_cycle_of_world_probed :
  snd <$> run_full_cleaning_cycle example_dry_env 1 world_probed
  = Some (Ok (Completed 0 0 3 1 0)).
Proof. vm_compute. reflexivity. Qed.

(** ** Whitelist guard: removing an entry without an account row *)

(** X27: removing by numeric id an entry whose account has no row in
    following_status reports failure, although the entry is gone from the
    connection's view; the deletion is not committed, so the committed
    database still holds what it held. *)
Theorem remove_without_row_not_committed (uid : string) (w : world) :
  py_isdigit uid = true ->
  find_following uid (following_status (conn w)) = None ->
  let result := remove_from_whitelist uid w in
  snd result = false /\
  (forall e, e ∈ whitelist (conn (fst result)) -> wl_user_id e <> uid) /\
  following_status (conn (fst result)) = following_status (conn w) /\
  disk (fst result) = disk w.
Proof.
  intros Hd Hnone result. unfold result.
  rewrite remove_from_whitelist_by_id by done.
  rewrite (find_none_rowcount uid _ Hnone). simpl.
  split; [done|]. split; [|split; [|done]].
  - intros e He. apply elem_of_sql_delete in He as [_ He].
    by destruct (String.eqb_spec (wl_user_id e) uid).
  - apply sql_update_none. by apply find_none_rowcount.
Qed.

Lemma remove_without_row_not_committed_witness :
  snd (remove_from_whitelist "77" world_orphan_entry) = false /\
  whitelist (conn (fst (remove_from_whitelist "77" world_orphan_entry))) = [] /\
  map wl_user_id
    (whitelist (disk (fst (remove_from_whitelist "77" world_orphan_entry))))
  = ["77"].
Proof.
  destruct (remove_without_row_not_committed "77" world_orphan_entry)
    as (Hfalse & _ & _ & Hdisk); [reflexivity | reflexivity |].
  split; [exact Hfalse|]. split; [reflexivity|]. rewrite Hdisk. reflexivity.
Defined.


Lemma auto_whitelist_verified_protects_witness :
  exists e,
    e ∈ whitelist (conn (fst (auto_whitelist_verified example_now
                                 world_verified))) /\
    wl_user_id e = "1".
Proof.
  destruct (auto_whitelist_verified_protects example_now world_verified)
    as (_ & Hentry & _).
  apply (Hentry (verified_row "1" 1000000)).
  - apply list_elem_of_here.
  - reflexivity.
Defined.

Lemma auto_whitelist_high_followers_protects_witness :
  exists e,
    e ∈ whitelist (conn (fst (auto_whitelist_high_followers example_now
                                 100000 world_verified))) /\
    wl_user_id e = "1".
Proof.
  destruct (auto_whitelist_high_followers_protects example_now 100000
              world_verified) as (_ & Hentry & _).
  apply (Hentry (verified_row "1" 1000000)).
  - apply list_elem_of_here.
  - reflexivity.
Defined.

(** The fuel only bounds the number of requests: a fetch that returns
    within some number of requests returns the same with any larger one. *)
Lemma fetch_loop_more_fuel now get_following fuel :
  forall n token w following_count result,
    fetch_loop now get_following fuel n token w following_count = Some result ->
    fetch_loop now get_following (S fuel) n token w following_count
    = Some result.
Proof.
  induction fuel as [|fuel IH]; intros n token w c result Hrun;
    [discriminate|].
  cbn [fetch_loop] in Hrun |- *.
  destruct (get_following n token) as [response|]; [|done].
  destruct (fr_status_code response =? 200).
  - destruct (add_users now (fr_data response) w c) as [w1 c1].
    destruct (fr_next_token response); [by apply IH | done].
  - destruct (fr_status_code response =? 429); [by apply IH | done].
Qed.

(** ** Whitelist guard: adding by identifier *)

Lemma manager_add_resolve (now : string)
    (username_of_id id_of_username : string -> option string)
    (identifier reason : string) (w : world) :
  WhitelistManager.add_to_whitelist now username_of_id id_of_username
    identifier reason w
  = match resolve username_of_id id_of_username identifier with
    | Some (uid, uname) => add_to_whitelist now uid uname reason w
    | None => (w, false)
    end.
Proof.
  unfold WhitelistManager.add_to_whitelist, resolve.
  destruct (py_isdigit (strip_at identifier)).
  - destruct (username_of_id (strip_at identifier)) as [uname|]; [|done].
    by destruct (String.eqb (strip_at identifier) "" || String.eqb uname "").
  - destruct (id_of_username (strip_at identifier)) as [uid|]; [|done].
    by destruct (String.eqb uid "" || String.eqb (strip_at identifier) "").
Qed.

Lemma bulk_add_loop_spec (now : string)
    (username_of_id id_of_username : string -> option string)
    (reason : string) (usernames : list string) :
  forall w added_count,
    let result :=
      WhitelistManager.bulk_add_loop now username_of_id id_of_username
        usernames reason w added_count in
    snd result
    = added_count
      + sql_count (resolvable username_of_id id_of_username) usernames /\
    (forall k,
       (exists i uname, i ∈ usernames /\
          resolve username_of_id id_of_username i = Some (k, uname)) \/
       (exists e, e ∈ whitelist (conn w) /\ wl_user_id e = k) ->
       exists e, e ∈ whitelist (conn (fst result)) /\ wl_user_id e = k) /\
    (Forall (fun i => resolve username_of_id id_of_username i = None)
       usernames -> fst result = w) /\
    map user_id (following_status (conn (fst result)))
    = map user_id (following_status (conn w)) /\
    unfollow_log (conn (fst result)) = unfollow_log (conn w) /\
    activity_checks (conn (fst result)) = activity_checks (conn w).
Proof.
  induction usernames as [|i usernames IH]; intros w n; cbv zeta.
  - simpl. rewrite Z.add_0_r. repeat split; try done.
    intros k [(i & u & Hi & _)|H]; [by apply elem_of_nil in Hi | done].
  - cbn [WhitelistManager.bulk_add_loop]. rewrite manager_add_resolve.
    rewrite sql_count_cons. unfold resolvable at 1.
    destruct (resolve username_of_id id_of_username i) as [[uid uname]|] eqn:Er.
    + cbn [add_to_whitelist].
      match goal with
      | |- context [WhitelistManager.bulk_add_loop _ _ _ _ _ ?w1 ?n1] =>
          specialize (IH w1 n1); cbv zeta in IH;
          set (res := WhitelistManager.bulk_add_loop now username_of_id
                        id_of_username usernames reason w1 n1) in *
      end.
      destruct IH as (Hcount & Hids & _ & Hkeys & Hul & Hac).
      cbn [conn commit with_following with_whitelist following_status
           whitelist unfollow_log activity_checks] in Hids, Hkeys, Hul, Hac.
      rewrite keys_sql_update in Hkeys by done.
      split; [rewrite Hcount; lia|]. split; [|split; [|done]].
      * intros k Hk. apply Hids.
        destruct Hk as [(j & u & Hj & Hres)|He].
        -- apply elem_of_cons in Hj as [->|Hj]; [|left; eauto].
           rewrite Er in Hres. injection Hres as -> ->.
           right. apply ids_insert_or_replace. by left.
        -- right. apply ids_insert_or_replace. by right.
      * intros Hall. apply Forall_cons in Hall as [Hi _]. congruence.
    + specialize (IH w n). cbv zeta in IH.
      destruct IH as (Hcount & Hids & Hnone & Hkeys & Hul & Hac).
      split; [rewrite Hcount; lia|]. split; [|split; [|done]].
      * intros k Hk. apply Hids.
        destruct Hk as [(j & u & Hj & Hres)|He]; [|by right].
        apply elem_of_cons in Hj as [->|Hj]; [congruence | left; eauto].
      * intros Hall. apply Forall_cons in Hall as [_ Hall]. by apply Hnone.
Qed.

(** X28: [bulk_add_from_list] returns the number of identifiers for which
    the lookup gives a non-empty user id and username; each of them has a
    whitelist entry under its user id afterwards, the others are skipped -
    when none resolves the state is as it was - and no account is added,
    removed or logged as unfollowed. *)
Theorem bulk_add_counts_resolved (now : string)
    (username_of_id id_of_username : string -> option string)
    (usernames : list string) (reason : string) (w : world) :
  let result :=
    WhitelistManager.bulk_add_from_list now username_of_id id_of_username
      usernames reason w in
  snd result = sql_count (resolvable username_of_id id_of_username) usernames
  /\
  0 <= snd result <= Z.of_nat (length usernames) /\
  (forall i uid uname,
     i ∈ usernames ->
     resolve username_of_id id_of_username i = Some (uid, uname) ->
     exists e, e ∈ whitelist (conn (fst result)) /\ wl_user_id e = uid) /\
  (Forall (fun i => resolve username_of_id id_of_username i = None) usernames
   -> fst result = w) /\
  map user_id (following_status (conn (fst result)))
  = map user_id (following_status (conn w)) /\
  unfollow_log (conn (fst result)) = unfollow_log (conn w).
Proof.
  intros result. unfold result, WhitelistManager.bulk_add_from_list.
  destruct (bulk_add_loop_spec now username_of_id id_of_username reason
              usernames w 0) as (Hcount & Hids & Hnone & Hkeys & Hul & _).
  split; [by rewrite Hcount|]. split; [|split; [|done]].
  - rewrite Hcount. unfold sql_count.
    pose proof (filter_length_le (resolvable username_of_id id_of_username)
                  (fun _ => true) usernames (fun _ _ => eq_refl)) as Hle.
    assert (length (List.filter (fun _ : string => true) usernames)
            = length usernames) as Hall.
    { clear. induction usernames; simpl; [done | by f_equal]. }
    lia.
  - intros i uid uname Hi Hres. apply Hids. left. eauto.
Qed.

Lemma bulk_add_counts_resolved_witness :
  exists e,
    e ∈ whitelist
          (conn (fst (WhitelistManager.bulk_add_from_list example_now
                        example_username_of_id example_id_of_username
                        ["@bob"; "nobody"; "77"] "Bulk addition"
                        world_scored))) /\
    wl_user_id e = "77".
Proof.
  destruct (bulk_add_counts_resolved example_now example_username_of_id
              example_id_of_username ["@bob"; "nobody"; "77"] "Bulk addition"
              world_scored) as (_ & _ & Hentry & _).
  apply (Hentry "77" "77" "carol").
  - apply list_elem_of_further, list_elem_of_further, list_elem_of_here.
  - reflexivity.
Defined.

Example bulk_add_three :
  snd (WhitelistManager.bulk_add_from_list example_now example_username_of_id
         example_id_of_username ["@bob"; "nobody"; "77"] "Bulk addition"
         world_scored) = 2.
Proof. vm_compute. reflexivity. Qed.

Lemma find_sql_update_key_preserving (p : following_row -> bool)
    (f : following_row -> following_row) (uid : string)
    (t : list following_row) :
  (forall r, user_id (f r) = user_id r) ->
  find_following uid (sql_update p f t)
  = (fun r => if p r then f r else r) <$> find_following uid t.
Proof.
  intros Hf. unfold find_following, sql_update.
  induction t as [|x t IH]; [done|]. simpl.
  assert (Hkey : user_id (if p x then f x else x) = user_id x)
    by (destruct (p x); [apply Hf | done]).
  rewrite Hkey. by destruct (String.eqb (user_id x) uid).
Qed.

(** X29: adding an account by username and removing it by the same
    username deletes its whitelist entry, but the flag of the account is
    cleared only if the username stored in following_status is spelled as
    the identifier: otherwise the row stays flagged as whitelisted, with
    SENTINEL_NEVER as its score, and has no whitelist entry. *)
Theorem add_then_remove_by_username (now : string)
    (username_of_id id_of_username : string -> option string)
    (name reason uid : string) (r : following_row) (w : world) :
  strip_at name = name ->
  py_isdigit name = false ->
  name <> "" ->
  id_of_username name = Some uid ->
  uid <> "" ->
  find_following uid (following_status (conn w)) = Some r ->
  let added :=
    fst (WhitelistManager.add_to_whitelist now username_of_id id_of_username
           name reason w) in
  let removed := fst (remove_from_whitelist name added) in
  (exists e, e ∈ whitelist (conn added) /\ wl_user_id e = uid) /\
  (forall e, e ∈ whitelist (conn removed) -> wl_user_id e <> uid) /\
  (username r = Some name ->
   exists r', find_following uid (following_status (conn removed)) = Some r'
              /\ is_whitelisted r' = Some 0) /\
  (username r <> Some name ->
   exists r', find_following uid (following_status (conn removed)) = Some r'
              /\ is_whitelisted r' = Some 1
              /\ unfollow_score r' = Some SENTINEL_NEVER).
Proof.
  intros Hstrip Hdigit Hname Hid Huid Hfind added removed.
  assert (Hres : resolve username_of_id id_of_username name = Some (uid, name)).
  { unfold resolve. rewrite Hstrip, Hdigit, Hid.
    destruct (String.eqb_spec uid ""); [done|].
    destruct (String.eqb_spec name ""); done. }
  assert (Hadded : added = fst (add_to_whitelist now uid name reason w)).
  { unfold added. by rewrite manager_add_resolve, Hres. }
  assert (Hremoved_wl :
    whitelist (conn removed)
    = sql_delete (fun e => sql_text_eq (wl_username e) name)
        (whitelist (conn added))).
  { unfold removed, remove_from_whitelist. rewrite Hstrip, Hdigit.
    simpl. by destruct (0 <? _). }
  assert (Hremoved_fs :
    following_status (conn removed)
    = sql_update (fun x => sql_text_eq (username x) name) clear_whitelisted
        (following_status (conn added))).
  { unfold removed, remove_from_whitelist. rewrite Hstrip, Hdigit.
    simpl. by destruct (0 <? _). }
  assert (Hfind_added :
    find_following uid (following_status (conn added))
    = Some (set_whitelisted r)).
  { rewrite Hadded. simpl. rewrite find_sql_update_same by done.
    by rewrite Hfind. }
  split; [|split; [|split]].
  - rewrite Hadded. simpl. apply ids_insert_or_replace. by left.
  - intros e He Hkey. rewrite Hremoved_wl in He.
    apply elem_of_sql_delete in He as [He Hkeep].
    rewrite Hadded in He. simpl in He. unfold sql_insert_or_replace in He.
    apply elem_of_app in He as [He|He].
    + apply elem_of_sql_delete in He as [_ He]. simpl in He.
      destruct (String.eqb_spec (wl_user_id e) uid); congruence.
    + apply list_elem_of_singleton in He as ->. simpl in Hkeep.
      by rewrite String.eqb_refl in Hkeep.
  - intros Huname. rewrite Hremoved_fs.
    rewrite find_sql_update_key_preserving by done. rewrite Hfind_added.
    simpl. rewrite Huname. simpl. rewrite String.eqb_refl. eauto.
  - intros Huname. rewrite Hremoved_fs.
    rewrite find_sql_update_key_preserving by done. rewrite Hfind_added.
    simpl. exists (set_whitelisted r). split; [|done].
    destruct (username r) as [stored|]; simpl; [|done].
    destruct (String.eqb_spec stored name); [congruence | done].
Qed.

Lemma add_then_remove_by_username_witness :
  exists r',
    find_following "42"
      (following_status
         (conn (fst (remove_from_whitelist "bob"
                       (fst (WhitelistManager.add_to_whitelist example_now
                               example_username_of_id example_id_of_username
                               "bob" "close friend" world_other_spelling))))))
    = Some r' /\
    is_whitelisted r' = Some 1 /\ unfollow_score r' = Some SENTINEL_NEVER.
Proof.
  destruct (add_then_remove_by_username example_now example_username_of_id
              example_id_of_username "bob" "close friend" "42"
              (set_unfollow_score 80
                 (set_activity None None None (Some 400) example_now
                    (new_following_row example_now
                       {| ad_id := "42"; ad_username := Some "Bob";
                          ad_name := None; ad_description := None;
                          ad_location := None; ad_url := None;
                          ad_verified := None; ad_protected := None;
                          ad_profile_image_url := None; ad_created_at := None;
                          ad_public_metrics := None |})))
              world_other_spelling)
    as (_ & _ & _ & Hstale); try reflexivity; try discriminate.
  apply Hstale. discriminate.
Defined.

(** ** The unfollow plan *)

(** X30: [get_unfollow_plan] returns nothing but the candidates of the
    query: it returns them whenever every followed, non-whitelisted row has
    a username, a days_inactive and a follower_count, and it raises
    TypeError, while printing, when the first candidate lacks one of
    them. *)
Theorem get_unfollow_plan_result (max_unfollows_per_run min_unfollow_score : Z)
    (w : world) :
  (forall plan,
     get_unfollow_plan max_unfollows_per_run min_unfollow_score w = Ok plan ->
     plan = get_unfollow_candidates max_unfollows_per_run min_unfollow_score w)
  /\
  ((forall r, r ∈ following_status (conn w) ->
              unfollowed_date r = None -> is_whitelisted r = Some 0 ->
              plan_line_prints r = true) ->
   get_unfollow_plan max_unfollows_per_run min_unfollow_score w
   = Ok (get_unfollow_candidates max_unfollows_per_run min_unfollow_score w))
  /\
  (forall c rest,
     get_unfollow_candidates max_unfollows_per_run min_unfollow_score w
     = c :: rest ->
     plan_line_prints c = false ->
     get_unfollow_plan max_unfollows_per_run min_unfollow_score w
     = Raise TypeError).
Proof.
  unfold get_unfollow_plan. split; [|split].
  - intros plan. destruct (forallb _ _); [congruence | discriminate].
  - intros Hall.
    assert (forallb plan_line_prints
              (firstn 10 (get_unfollow_candidates max_unfollows_per_run
                            min_unfollow_score w)) = true) as ->; [|done].
    apply forallb_forall. intros r Hr. apply list_elem_of_In in Hr.
    apply (subseteq_take 10) in Hr.
    apply candidates_qualify in Hr as [Hin Hc].
    apply is_candidate_spec in Hc as (Hd & Hwl & _). by apply Hall.
  - intros c rest -> Hc. simpl. by rewrite Hc.
Qed.

Lemma get_unfollow_plan_result_witness :
  get_unfollow_plan 50 50 world_unknown_candidate = Raise TypeError.
Proof.
  destruct (get_unfollow_plan_result 50 50 world_unknown_candidate)
    as (_ & _ & Hraise).
  apply (Hraise
           (set_unfollow_score 95
              (set_activity None None None None example_now
                 (probed_row "2" 800 20 5)))
           [set_unfollow_score 90 (probed_row "1" 800 20 5)]);
    reflexivity.
Defined.
